(** * The API Gateway REST API resource handler

    A shallow embedding of [aws/resource_aws_api_gateway_rest_api.go]:
    the create, read, update and delete callbacks of the
    [aws_api_gateway_rest_api] resource, the translation of a planned
    change into JSON-patch operations, and the helpers that convert the
    endpoint configuration.

    Go strings are byte sequences and are modelled by [string] (a list of
    8-bit [ascii]); Go's [int] and [int64] by [Z] (every integer the
    handler touches passes the schema's range check, far from the 64-bit
    bounds); a pointer that may be nil by [option]; slices by [list]. *)

From Stdlib Require Import String Ascii List ZArith Bool Lia DecimalString.
From Stdlib Require Import Sorted.
From Stdlib Require DecimalPos DecimalZ.
Import ListNotations.

Local Open Scope string_scope.
Local Open Scope list_scope.

(** ** Go library functions used by the handler *)

(** Error values. An [awserr.Error] carries the machine-readable code the
    handler inspects and the text its [Error] method renders; [errors.New]
    and [fmt.Errorf] produce a plain text; [errwrap.Wrapf] keeps the inner
    error next to the outer text; [resource.TimeoutError] is what the retry
    helper reports when its deadline passes with nothing else to report. *)
Inductive error :=
| awserr_Error (code text : string)
| errors_New (text : string)
| errwrap_Wrapped (outer : string) (inner : error)
| resource_TimeoutError.

Definition Error (e : error) : string :=
  match e with
  | awserr_Error _ text => text
  | errors_New text => text
  | errwrap_Wrapped outer _ => outer
  | resource_TimeoutError => "timeout while waiting for state to become 'success'"
  end.

(** A Go call returning a value and an error. *)
Inductive response (A : Type) :=
| Success (out : A)
| Failure (err : error).
Arguments Success {A} out.
Arguments Failure {A} err.

(** Bytes. [byte_val] is the conversion of a byte to an integer, [byte]
    the truncating conversion of an integer to a byte. *)
Definition byte_val (c : ascii) : Z := Z.of_N (N_of_ascii c).
Definition byte (z : Z) : ascii := ascii_of_N (Z.to_N (z mod 256)).

(** The conversion to [int32] (Go's [rune]), with its wrap-around. *)
Definition int32 (z : Z) : Z := (z + 2 ^ 31) mod 2 ^ 32 - 2 ^ 31.

(** [s[i]], read only below [len(s)] by the code below. *)
Definition index (s : string) (i : nat) : Z :=
  match String.get i s with Some c => byte_val c | None => 0 end.

(** [s[n:]] *)
Fixpoint drop (n : nat) (s : string) : string :=
  match n, s with
  | O, _ => s
  | S n', String _ t => drop n' t
  | S _, EmptyString => EmptyString
  end.

Definition dquote : ascii := "034"%char.
Definition squote : ascii := "'"%char.
Definition backquote : ascii := "`"%char.
Definition backslash : ascii := "\"%char.
Definition newline : ascii := "010"%char.
Definition carriage_return : ascii := "013"%char.

(** *** Package [unicode/utf8] *)

Module utf8.
Local Open Scope Z_scope.

Definition RuneError : Z := 0xFFFD.
Definition RuneSelf : Z := 0x80.
Definition MaxRune : Z := 0x10FFFF.

Definition surrogateMin : Z := 0xD800.
Definition surrogateMax : Z := 0xDFFF.

Definition tx : Z := 0x80.
Definition t2 : Z := 0xC0.
Definition t3 : Z := 0xE0.
Definition t4 : Z := 0xF0.

Definition maskx : Z := 0x3F.
Definition mask2 : Z := 0x1F.
Definition mask3 : Z := 0x0F.
Definition mask4 : Z := 0x07.

Definition rune1Max : Z := 0x7F.
Definition rune2Max : Z := 0x7FF.
Definition rune3Max : Z := 0xFFFF.

Definition locb : Z := 0x80.
Definition hicb : Z := 0xBF.

(** Information about the first byte of an encoding: the size in the
    low bits, the index of the accepted range of the second byte in the
    high ones. *)
Definition xx : Z := 0xF1.
Definition as_ : Z := 0xF0.
Definition s1 : Z := 0x02.
Definition s2 : Z := 0x13.
Definition s3 : Z := 0x03.
Definition s4 : Z := 0x23.
Definition s5 : Z := 0x34.
Definition s6 : Z := 0x04.
Definition s7 : Z := 0x44.

(** The table [first], by ranges of its index. *)
Definition first (b : Z) : Z :=
  if b <? 0x80 then as_
  else if b <? 0xC2 then xx
  else if b <? 0xE0 then s1
  else if b =? 0xE0 then s2
  else if b <? 0xED then s3
  else if b =? 0xED then s4
  else if b <? 0xF0 then s3
  else if b =? 0xF0 then s5
  else if b <? 0xF4 then s6
  else if b =? 0xF4 then s7
  else xx.

Record acceptRange := { lo : Z; hi : Z }.

Definition acceptRanges (i : Z) : acceptRange :=
  if i =? 0 then {| lo := locb; hi := hicb |}
  else if i =? 1 then {| lo := 0xA0; hi := hicb |}
  else if i =? 2 then {| lo := locb; hi := 0x9F |}
  else if i =? 3 then {| lo := 0x90; hi := hicb |}
  else if i =? 4 then {| lo := locb; hi := 0x8F |}
  else {| lo := 0; hi := 0 |}.

(** [DecodeRuneInString]: the first rune of [s] and its width in bytes;
    [(RuneError, 1)] for an invalid encoding. *)
Definition DecodeRuneInString (s : string) : Z * nat :=
  let n := String.length s in
  if (n <? 1)%nat then (RuneError, 0%nat) else
  let s0 := index s 0 in
  let x := first s0 in
  if x >=? as_ then
    let mask := Z.shiftr (int32 (Z.shiftl x 31)) 31 in
    (Z.lor (Z.ldiff s0 mask) (Z.land RuneError mask), 1%nat)
  else
  let sz := Z.land x 7 in
  let accept := acceptRanges (Z.shiftr x 4) in
  if Z.of_nat n <? sz then (RuneError, 1%nat) else
  let s1 := index s 1 in
  if (s1 <? lo accept) || (hi accept <? s1) then (RuneError, 1%nat) else
  if sz =? 2 then
    (Z.lor (Z.shiftl (Z.land s0 mask2) 6) (Z.land s1 maskx), 2%nat)
  else
  let s2 := index s 2 in
  if (s2 <? locb) || (hicb <? s2) then (RuneError, 1%nat) else
  if sz =? 3 then
    (Z.lor (Z.lor (Z.shiftl (Z.land s0 mask3) 12)
                  (Z.shiftl (Z.land s1 maskx) 6))
           (Z.land s2 maskx), 3%nat)
  else
  let s3 := index s 3 in
  if (s3 <? locb) || (hicb <? s3) then (RuneError, 1%nat) else
  (Z.lor (Z.lor (Z.lor (Z.shiftl (Z.land s0 mask4) 18)
                       (Z.shiftl (Z.land s1 maskx) 12))
                (Z.shiftl (Z.land s2 maskx) 6))
         (Z.land s3 maskx), 4%nat).

(** The three-byte case of [EncodeRune]. *)
Definition encode3 (r : Z) : string :=
  String (byte (Z.lor t3 (byte_val (byte (Z.shiftr r 12)))))
 (String (byte (Z.lor tx (Z.land (byte_val (byte (Z.shiftr r 6))) maskx)))
 (String (byte (Z.lor tx (Z.land (byte_val (byte r)) maskx)))
  EmptyString)).

(** [EncodeRune]: the bytes written for the rune [r]. *)
Definition EncodeRune (r : Z) : string :=
  let i := r mod 2 ^ 32 in
  if i <=? rune1Max then String (byte r) EmptyString
  else if i <=? rune2Max then
    String (byte (Z.lor t2 (byte_val (byte (Z.shiftr r 6)))))
   (String (byte (Z.lor tx (Z.land (byte_val (byte r)) maskx)))
    EmptyString)
  else if (i >? MaxRune) || ((surrogateMin <=? i) && (i <=? surrogateMax))
  then encode3 RuneError
  else if i <=? rune3Max then encode3 r
  else
    String (byte (Z.lor t4 (byte_val (byte (Z.shiftr r 18)))))
   (String (byte (Z.lor tx (Z.land (byte_val (byte (Z.shiftr r 12))) maskx)))
   (String (byte (Z.lor tx (Z.land (byte_val (byte (Z.shiftr r 6))) maskx)))
   (String (byte (Z.lor tx (Z.land (byte_val (byte r)) maskx)))
    EmptyString))).

(** [ValidString]: whether [s] consists of valid encodings only. The
    recursion follows the suffix [s[i:]] of the Go loop. *)
Fixpoint ValidString (s : string) : bool :=
  match s with
  | EmptyString => true
  | String c0 t0 =>
    let si := byte_val c0 in
    if si <? RuneSelf then ValidString t0 else
    let x := first si in
    if x =? xx then false else
    let size := Z.land x 7 in
    if Z.of_nat (String.length s) <? size then false else
    let accept := acceptRanges (Z.shiftr x 4) in
    match t0 with
    | EmptyString => false
    | String c1 t1 =>
      let c := byte_val c1 in
      if (c <? lo accept) || (hi accept <? c) then false
      else if size =? 2 then ValidString t1
      else
        match t1 with
        | EmptyString => false
        | String c2 t2 =>
          let c := byte_val c2 in
          if (c <? locb) || (hicb <? c) then false
          else if size =? 3 then ValidString t2
          else
            match t2 with
            | EmptyString => false
            | String c3 t3 =>
              let c := byte_val c3 in
              if (c <? locb) || (hicb <? c) then false
              else ValidString t3
            end
        end
    end
  end.

End utf8.

(** *** Package [strconv]

    [Itoa], and [Unquote] with what it calls, after [strconv/quote.go]. *)

Module strconv.
Local Open Scope Z_scope.

(** [strconv.Itoa]: the decimal rendering of an integer, with a leading
    minus sign for a negative one. *)
Definition Itoa (i : Z) : string := NilZero.string_of_int (Z.to_int i).

Definition ErrSyntax : error := errors_New "invalid syntax".

(** [contains]: whether the byte [c] occurs in [s]. *)
Fixpoint contains (s : string) (c : ascii) : bool :=
  match s with
  | EmptyString => false
  | String b t => Ascii.eqb b c || contains t c
  end.

Definition between (l c h : Z) : bool := (l <=? c) && (c <=? h).

(** [unhex]: the value of a hexadecimal digit. *)
Definition unhex (b : ascii) : option Z :=
  let c := byte_val b in
  if between (byte_val "0") c (byte_val "9") then Some (c - byte_val "0")
  else if between (byte_val "a") c (byte_val "f")
  then Some (c - byte_val "a" + 10)
  else if between (byte_val "A") c (byte_val "F")
  then Some (c - byte_val "A" + 10)
  else None.

(** The loop of [UnquoteChar] over [n] hexadecimal digits. *)
Fixpoint hex_digits (n : nat) (s : string) (v : Z) : option Z :=
  match n with
  | O => Some v
  | S n' =>
    match s with
    | EmptyString => None
    | String b t =>
      match unhex b with
      | None => None
      | Some x => hex_digits n' t (int32 (Z.lor (Z.shiftl v 4) x))
      end
    end
  end.

(** The loop of [UnquoteChar] over the two further octal digits. *)
Fixpoint octal_digits (n : nat) (s : string) (v : Z) : option Z :=
  match n with
  | O => Some v
  | S n' =>
    match s with
    | EmptyString => None
    | String b t =>
      let x := byte_val b - byte_val "0" in
      if (x <? 0) || (x >? 7) then None
      else octal_digits n' t (Z.lor (Z.shiftl v 3) x)
    end
  end.

(** [UnquoteChar]: the first character or escape sequence of [s], whether
    it needs a multi-byte encoding, and the rest of [s]; [None] stands
    for the result [ErrSyntax]. *)
Definition UnquoteChar (s : string) (quote : ascii)
    : option (Z * bool * string) :=
  match s with
  | EmptyString => None
  | String c t =>
    if Ascii.eqb c quote
       && (Ascii.eqb quote squote || Ascii.eqb quote dquote) then None
    else if byte_val c >=? utf8.RuneSelf then
      let (r, size) := utf8.DecodeRuneInString s in
      Some (r, true, drop size s)
    else if negb (Ascii.eqb c backslash) then
      Some (byte_val c, false, t)
    else
      (* hard case: c is backslash *)
      match t with
      | EmptyString => None
      | String c s =>
        if Ascii.eqb c "a" then Some (7, false, s)
        else if Ascii.eqb c "b" then Some (8, false, s)
        else if Ascii.eqb c "f" then Some (12, false, s)
        else if Ascii.eqb c "n" then Some (10, false, s)
        else if Ascii.eqb c "r" then Some (13, false, s)
        else if Ascii.eqb c "t" then Some (9, false, s)
        else if Ascii.eqb c "v" then Some (11, false, s)
        else if Ascii.eqb c "x" || Ascii.eqb c "u" || Ascii.eqb c "U" then
          let n := if Ascii.eqb c "x" then 2%nat
                   else if Ascii.eqb c "u" then 4%nat
                   else 8%nat in
          if (String.length s <? n)%nat then None else
          match hex_digits n s 0 with
          | None => None
          | Some v =>
            let s := drop n s in
            if Ascii.eqb c "x" then Some (v, false, s)
            else if v >? utf8.MaxRune then None
            else Some (v, true, s)
          end
        else if between (byte_val "0") (byte_val c) (byte_val "7") then
          let v := byte_val c - byte_val "0" in
          if (String.length s <? 2)%nat then None else
          match octal_digits 2 s v with
          | None => None
          | Some v =>
            let s := drop 2 s in
            if v >? 255 then None else Some (v, false, s)
          end
        else if Ascii.eqb c backslash then Some (byte_val backslash, false, s)
        else if Ascii.eqb c squote || Ascii.eqb c dquote then
          if negb (Ascii.eqb c quote) then None
          else Some (byte_val c, false, s)
        else None
      end
  end.

(** The loop of [Unquote]: one call of [UnquoteChar] per round, on what
    the previous one left. Every round consumes a byte at least, so the
    length of the input bounds the number of rounds. *)
Fixpoint unquote_loop (rounds : nat) (s : string) (quote : ascii)
    (buf : string) : response string :=
  match s with
  | EmptyString => Success buf
  | String _ _ =>
    match rounds with
    | O => Failure ErrSyntax
    | S rounds' =>
      match UnquoteChar s quote with
      | None => Failure ErrSyntax
      | Some (c, multibyte, ss) =>
        let buf :=
          if (c <? utf8.RuneSelf) || negb multibyte
          then (buf ++ String (byte c) EmptyString)%string
          else (buf ++ utf8.EncodeRune c)%string in
        if Ascii.eqb quote squote && negb (String.length ss =? 0)%nat
        then Failure ErrSyntax
        else unquote_loop rounds' ss quote buf
      end
    end
  end.

(** The removal of carriage returns from a raw string literal. *)
Fixpoint without_cr (s : string) : string :=
  match s with
  | EmptyString => EmptyString
  | String b t =>
    if Ascii.eqb b carriage_return then without_cr t
    else String b (without_cr t)
  end.

(** [strconv.Unquote]: the string a Go string or character literal
    denotes. *)
Definition Unquote (s : string) : response string :=
  let n := String.length s in
  if (n <? 2)%nat then Failure ErrSyntax else
  let quote := byte (index s 0) in
  if negb (Ascii.eqb quote (byte (index s (n - 1)))) then Failure ErrSyntax
  else
  let s := String.substring 1 (n - 2) s in
  if Ascii.eqb quote backquote then
    if contains s backquote then Failure ErrSyntax
    else if contains s carriage_return then Success (without_cr s)
    else Success s
  else
  if negb (Ascii.eqb quote dquote) && negb (Ascii.eqb quote squote)
  then Failure ErrSyntax else
  if contains s newline then Failure ErrSyntax else
  if negb (contains s backslash) && negb (contains s quote)
     && (if Ascii.eqb quote dquote then utf8.ValidString s
         else
           let (r, size) := utf8.DecodeRuneInString s in
           (size =? String.length s)%nat
           && (negb (r =? utf8.RuneError) || negb (size =? 1)%nat))
  then Success s
  else unquote_loop (String.length s) s quote EmptyString.

End strconv.

Module aws.

(** [aws.String], [aws.Int64]: the address of a fresh copy. *)
Definition String (s : string) : option string := Some s.
Definition Int64 (i : Z) : option Z := Some i.

(** [aws.StringValue]: the pointee, or the empty string for nil. *)
Definition StringValue (p : option string) : string :=
  match p with Some s => s | None => "" end.

End aws.

(** [reflect.DeepEqual] on the value types of the schema. *)
Definition DeepEqual_string (a b : string) : bool := String.eqb a b.
Definition DeepEqual_int (a b : Z) : bool := Z.eqb a b.
Definition DeepEqual_list (a b : list string) : bool :=
  if list_eq_dec string_dec a b then true else false.

(** ** The service's data types ([apigateway] package of the SDK) *)

Module apigateway.

Definition EndpointTypeEdge := "EDGE".
Definition EndpointTypeRegional := "REGIONAL".
Definition PutModeOverwrite := "overwrite".

Record PatchOperation := {
  From : option string;
  Op : option string;
  Path : option string;
  Value : option string }.

Record EndpointConfiguration := { Types : list string }.

Record CreateRestApiInput := {
  cra_BinaryMediaTypes : option (list string);
  cra_Description : option string;
  cra_EndpointConfiguration : option EndpointConfiguration;
  cra_MinimumCompressionSize : option Z;
  cra_Name : option string;
  cra_Policy : option string }.

Record PutRestApiInput := {
  pra_Body : string;
  pra_Mode : option string;
  pra_RestApiId : option string }.

Record UpdateRestApiInput := {
  ura_PatchOperations : list PatchOperation;
  ura_RestApiId : option string }.

Record Resource := {
  res_Id : option string;
  res_Path : option string }.

End apigateway.
Import apigateway.

(** ** The resource data of the host engine ([schema.ResourceData])

    The attributes of the resource, typed as the schema declares them. A
    block of [endpoint_configuration] is a map with the single key
    [types]. *)

Record EndpointConfigurationBlock := { types : list string }.

Record Attributes := {
  name : string;
  description : string;
  policy : string;
  binary_media_types : list string;
  body : string;
  minimum_compression_size : Z;
  root_resource_id : string;
  created_date : string;
  execution_arn : string;
  endpoint_configuration : list EndpointConfigurationBlock }.

(** [d.Get] reads the planned value of an attribute (prior state merged
    with the diff and with what the callback has written by [d.Set]);
    [d.GetChange] returns the prior and the planned value, and
    [d.HasChange] says whether they differ. No callback of this file asks
    for a change after it has written an attribute, so one record serves
    both for the planned values and for the written ones. *)
Record ResourceData := {
  Id : string;
  prior : Attributes;
  planned : Attributes }.

Definition GetChange {A} (key : Attributes -> A) (d : ResourceData) : A * A :=
  (key (prior d), key (planned d)).

Definition HasChange {A} (eq : A -> A -> bool) (key : Attributes -> A)
    (d : ResourceData) : bool :=
  let (o, n) := GetChange key d in negb (eq o n).

Definition Get {A} (key : Attributes -> A) (d : ResourceData) : A :=
  key (planned d).

(** [d.GetOk]: the value, and whether it differs from the zero value of
    its type. *)
Definition GetOk_string (key : Attributes -> string) (d : ResourceData)
    : string * bool :=
  (Get key d, negb (DeepEqual_string (Get key d) "")).

Definition GetOk_list {A} (key : Attributes -> list A) (d : ResourceData)
    : list A * bool :=
  (Get key d, match Get key d with [] => false | _ :: _ => true end).

(** The key [endpoint_configuration.0.types]: the types of the first
    block, the zero value (an empty list) when there is no block. *)
Definition endpoint_configuration_0_types (a : Attributes) : list string :=
  match endpoint_configuration a with
  | [] => []
  | m :: _ => types m
  end.

(** ** The diff-to-patch translation *)

Section UpdateOperations.

(** [escapeJsonPointer] lives in another file of the provider; the
    translation is studied for an arbitrary escaping function. *)
Variable escapeJsonPointer : string -> string.

(** [fmt.Sprintf("/%s/%s", prefix, escapeJsonPointer(v))] *)
Definition Sprintf_path (prefix v : string) : string :=
  "/" ++ prefix ++ "/" ++ escapeJsonPointer v.

(** The result is [None] when the Go code panics: indexing the first
    endpoint type of a block whose [types] list is empty. *)
Definition resourceAwsApiGatewayRestApiUpdateOperations (d : ResourceData)
    : option (list PatchOperation) :=
  let operations : list PatchOperation := [] in
  let operations :=
    if HasChange DeepEqual_string name d then
      operations ++ [ {| From := None;
                         Op := aws.String "replace";
                         Path := aws.String "/name";
                         Value := aws.String (Get name d) |} ]
    else operations in
  let operations :=
    if HasChange DeepEqual_string description d then
      operations ++ [ {| From := None;
                         Op := aws.String "replace";
                         Path := aws.String "/description";
                         Value := aws.String (Get description d) |} ]
    else operations in
  let operations :=
    if HasChange DeepEqual_string policy d then
      operations ++ [ {| From := None;
                         Op := aws.String "replace";
                         Path := aws.String "/policy";
                         Value := aws.String (Get policy d) |} ]
    else operations in
  let operations :=
    if HasChange DeepEqual_int minimum_compression_size d then
      let minimumCompressionSize := Get minimum_compression_size d in
      let value :=
        if (minimumCompressionSize >? -1)%Z
        then strconv.Itoa minimumCompressionSize
        else "" in
      operations ++ [ {| From := None;
                         Op := aws.String "replace";
                         Path := aws.String "/minimumCompressionSize";
                         Value := aws.String value |} ]
    else operations in
  let operations :=
    if HasChange DeepEqual_list binary_media_types d then
      let (old, new) := GetChange binary_media_types d in
      let prefix := "binaryMediaTypes" in
      let operations :=
        fold_left
          (fun operations v =>
             operations ++ [ {| From := None;
                                Op := aws.String "remove";
                                Path := aws.String (Sprintf_path prefix v);
                                Value := None |} ])
          old operations in
      if (0 <? length new)%nat then
        fold_left
          (fun operations v =>
             operations ++ [ {| From := None;
                                Op := aws.String "add";
                                Path := aws.String (Sprintf_path prefix v);
                                Value := None |} ])
          new operations
      else operations
    else operations in
  if HasChange DeepEqual_list endpoint_configuration_0_types d then
    let (v, ok) := GetOk_list endpoint_configuration d in
    if ok && (0 <? length v)%nat then
      match v with
      | m :: _ =>
          match types m with
          | t :: _ =>
              Some (operations ++
                    [ {| From := None;
                         Op := aws.String "replace";
                         Path := aws.String "/endpointConfiguration/types/0";
                         Value := aws.String t |} ])
          | [] => None
          end
      | [] => None
      end
    else Some operations
  else Some operations.

End UpdateOperations.

(** ** The remote service and the host engine *)

Module service.

Record RestApi (time_Time : Type) := {
  ra_BinaryMediaTypes : list string;
  ra_CreatedDate : option time_Time;
  ra_Description : option string;
  ra_EndpointConfiguration : option EndpointConfiguration;
  ra_Id : option string;
  ra_MinimumCompressionSize : option Z;
  ra_Name : option string;
  ra_Policy : option string }.
Arguments ra_BinaryMediaTypes {time_Time}.
Arguments ra_CreatedDate {time_Time}.
Arguments ra_Description {time_Time}.
Arguments ra_EndpointConfiguration {time_Time}.
Arguments ra_Id {time_Time}.
Arguments ra_MinimumCompressionSize {time_Time}.
Arguments ra_Name {time_Time}.
Arguments ra_Policy {time_Time}.

(** The calls the handler makes through its connection; each of
    [GetResources], [GetRestApi] and [DeleteRestApi] takes the
    identifier of the REST API only. *)
Inductive Call :=
| CallCreateRestApi (input : CreateRestApiInput)
| CallPutRestApi (input : PutRestApiInput)
| CallGetResources (RestApiId : option string)
| CallGetRestApi (RestApiId : option string)
| CallUpdateRestApi (input : UpdateRestApiInput)
| CallDeleteRestApi (RestApiId : option string).

(** The remote service: a state of its own and, for each operation, the
    answer it gives and the state it moves to. *)
Record Service (time_Time S : Type) := {
  CreateRestApi : CreateRestApiInput -> S -> response (RestApi time_Time) * S;
  PutRestApi : PutRestApiInput -> S -> response (RestApi time_Time) * S;
  GetResources : option string -> S -> response (list Resource) * S;
  GetRestApi : option string -> S -> response (RestApi time_Time) * S;
  UpdateRestApi : UpdateRestApiInput -> S -> response (RestApi time_Time) * S;
  DeleteRestApi : option string -> S -> response unit * S }.
Arguments CreateRestApi {time_Time S}.
Arguments PutRestApi {time_Time S}.
Arguments GetResources {time_Time S}.
Arguments GetRestApi {time_Time S}.
Arguments UpdateRestApi {time_Time S}.
Arguments DeleteRestApi {time_Time S}.

End service.
Import service.

(** The part of the provider's [AWSClient] the handler reads, next to the
    connection. *)
Record AWSClient := {
  partition : string;
  region : string;
  accountid : string }.

(** What a callback runs on: the resource data it was handed, the remote
    service, and the calls made so far, oldest first. *)
Record Machine (S : Type) := {
  data : ResourceData;
  remote : S;
  trace : list Call }.
Arguments data {S}.
Arguments remote {S}.
Arguments trace {S}.

(** How a run ends: with a value, with the Go error it returns, or in a
    Go panic (a nil dereference or an index out of range). *)
Inductive outcome (A : Type) :=
| Ok (a : A)
| Err (e : error)
| Panic.
Arguments Ok {A} a.
Arguments Err {A} e.
Arguments Panic {A}.

Definition M (S A : Type) : Type := Machine S -> outcome A * Machine S.

Definition ret {S A} (a : A) : M S A := fun m => (Ok a, m).

Definition bind {S A B} (c : M S A) (k : A -> M S B) : M S B :=
  fun m =>
    match c m with
    | (Ok a, m') => k a m'
    | (Err e, m') => (Err e, m')
    | (Panic, m') => (Panic, m')
    end.

(** [return err] *)
Definition throw {S A} (e : error) : M S A := fun m => (Err e, m).

Definition panic {S A} : M S A := fun m => (Panic, m).

Declare Scope go_scope.
Delimit Scope go_scope with go.
Notation "x <- c ;; k" := (bind c (fun x => k))
  (at level 61, c at next level, right associativity) : go_scope.
Notation "c ;; k" := (bind c (fun _ => k))
  (at level 61, right associativity) : go_scope.

(** [*p] *)
Definition deref {S A} (p : option A) : M S A :=
  match p with Some a => ret a | None => panic end.

Definition getData {S} : M S ResourceData := fun m => (Ok (data m), m).

Definition modifyData {S} (f : ResourceData -> ResourceData) : M S unit :=
  fun m => (Ok tt, {| data := f (data m); remote := remote m; trace := trace m |}).

(** A call through the connection: it is recorded, and the service answers
    and moves on. *)
Definition call {S A} (c : Call) (op : S -> response A * S) : M S (response A) :=
  fun m =>
    let (r, s') := op (remote m) in
    (Ok r, {| data := data m; remote := s'; trace := trace m ++ [c] |}).

(** [d.SetId] and [d.Set] for the attributes the handler writes. A nil
    pointer written to a string attribute leaves its zero value. *)
Definition SetId (v : string) (d : ResourceData) : ResourceData :=
  {| Id := v; prior := prior d; planned := planned d |}.

Definition Set_ (f : Attributes -> Attributes) (d : ResourceData) : ResourceData :=
  {| Id := Id d; prior := prior d; planned := f (planned d) |}.

Definition with_name (v : string) (a : Attributes) : Attributes :=
  {| name := v; description := description a; policy := policy a;
     binary_media_types := binary_media_types a; body := body a;
     minimum_compression_size := minimum_compression_size a;
     root_resource_id := root_resource_id a; created_date := created_date a;
     execution_arn := execution_arn a;
     endpoint_configuration := endpoint_configuration a |}.

Definition with_description (v : string) (a : Attributes) : Attributes :=
  {| name := name a; description := v; policy := policy a;
     binary_media_types := binary_media_types a; body := body a;
     minimum_compression_size := minimum_compression_size a;
     root_resource_id := root_resource_id a; created_date := created_date a;
     execution_arn := execution_arn a;
     endpoint_configuration := endpoint_configuration a |}.

Definition with_policy (v : string) (a : Attributes) : Attributes :=
  {| name := name a; description := description a; policy := v;
     binary_media_types := binary_media_types a; body := body a;
     minimum_compression_size := minimum_compression_size a;
     root_resource_id := root_resource_id a; created_date := created_date a;
     execution_arn := execution_arn a;
     endpoint_configuration := endpoint_configuration a |}.

Definition with_binary_media_types (v : list string) (a : Attributes) : Attributes :=
  {| name := name a; description := description a; policy := policy a;
     binary_media_types := v; body := body a;
     minimum_compression_size := minimum_compression_size a;
     root_resource_id := root_resource_id a; created_date := created_date a;
     execution_arn := execution_arn a;
     endpoint_configuration := endpoint_configuration a |}.

Definition with_minimum_compression_size (v : Z) (a : Attributes) : Attributes :=
  {| name := name a; description := description a; policy := policy a;
     binary_media_types := binary_media_types a; body := body a;
     minimum_compression_size := v;
     root_resource_id := root_resource_id a; created_date := created_date a;
     execution_arn := execution_arn a;
     endpoint_configuration := endpoint_configuration a |}.

Definition with_root_resource_id (v : string) (a : Attributes) : Attributes :=
  {| name := name a; description := description a; policy := policy a;
     binary_media_types := binary_media_types a; body := body a;
     minimum_compression_size := minimum_compression_size a;
     root_resource_id := v; created_date := created_date a;
     execution_arn := execution_arn a;
     endpoint_configuration := endpoint_configuration a |}.

Definition with_created_date (v : string) (a : Attributes) : Attributes :=
  {| name := name a; description := description a; policy := policy a;
     binary_media_types := binary_media_types a; body := body a;
     minimum_compression_size := minimum_compression_size a;
     root_resource_id := root_resource_id a; created_date := v;
     execution_arn := execution_arn a;
     endpoint_configuration := endpoint_configuration a |}.

Definition with_execution_arn (v : string) (a : Attributes) : Attributes :=
  {| name := name a; description := description a; policy := policy a;
     binary_media_types := binary_media_types a; body := body a;
     minimum_compression_size := minimum_compression_size a;
     root_resource_id := root_resource_id a; created_date := created_date a;
     execution_arn := v;
     endpoint_configuration := endpoint_configuration a |}.

Definition with_endpoint_configuration (v : list EndpointConfigurationBlock)
    (a : Attributes) : Attributes :=
  {| name := name a; description := description a; policy := policy a;
     binary_media_types := binary_media_types a; body := body a;
     minimum_compression_size := minimum_compression_size a;
     root_resource_id := root_resource_id a; created_date := created_date a;
     execution_arn := execution_arn a;
     endpoint_configuration := v |}.

(** [arn.ARN{...}.String()] *)
Definition arn_String (Partition Service_ Region AccountID Resource_ : string)
    : string :=
  "arn:" ++ Partition ++ ":" ++ Service_ ++ ":" ++ Region ++ ":"
         ++ AccountID ++ ":" ++ Resource_.

(** [fmt.Errorf(prefix + "%s", err)] and
    [errwrap.Wrapf(prefix + "{{err}}", err)] *)
Definition fmt_Errorf (prefix : string) (err : error) : error :=
  errors_New (prefix ++ Error err).

Definition errwrap_Wrapf (prefix : string) (err : error) : error :=
  errwrap_Wrapped (prefix ++ Error err) err.

(** *** The retry helper of the host engine ([resource.Retry]) *)

Record RetryError := { Err_ : error; Retryable : bool }.

Definition NonRetryableError (err : error) : RetryError :=
  {| Err_ := err; Retryable := false |}.

(** The helper calls [f] again and again, waiting in between, until [f]
    returns nil, or an error that is not retryable, or the time is up. The
    passing of time is the number of the calls the timeout leaves room
    for: [rounds]. When the time is up the last error of [f] is returned,
    and a timeout error when there is none. *)
Fixpoint Retry_rounds {S} (rounds : nat) (resultErr : option error)
    (f : M S (option RetryError)) : M S unit :=
  match rounds with
  | O => match resultErr with
         | Some e => throw e
         | None => throw resource_TimeoutError
         end
  | Datatypes.S rounds' =>
    (rerr <- f ;;
     match rerr with
     | None => ret tt
     | Some r =>
       if Retryable r then Retry_rounds rounds' (Some (Err_ r)) f
       else throw (Err_ r)
     end)%go
  end.

Definition Retry {S} (rounds : nat) (f : M S (option RetryError)) : M S unit :=
  Retry_rounds rounds None f.

(** ** The callbacks of the resource *)

Section Handler.

(** [time.Time] and its rendering by [Format(time.RFC3339)]. *)
Variable time_Time : Type.
Variable Format_RFC3339 : time_Time -> string.

(** Helpers that live in other files of the provider. *)
Variable expandStringList : list string -> list string.
Variable flattenStringList : list string -> list string.
Variable escapeJsonPointer : string -> string.

(** The remote service behind the [apigateway] connection of [meta],
    and the rest of [meta]. *)
Variable S : Type.
Variable conn : Service time_Time S.
Variable meta : AWSClient.

(** The number of calls a timeout (in nanoseconds) leaves room for. *)
Variable rounds_within : Z -> nat.
Definition time_Minute : Z := 60 * 1000000000.

Local Open Scope go_scope.

Definition expandApiGatewayEndpointConfiguration
    (l : list EndpointConfigurationBlock) : option EndpointConfiguration :=
  if (length l =? 0)%nat then None
  else
    match l with
    | m :: _ => Some {| Types := expandStringList (types m) |}
    | [] => None
    end.

Definition flattenApiGatewayEndpointConfiguration
    (endpointConfiguration : option EndpointConfiguration)
    : list EndpointConfigurationBlock :=
  match endpointConfiguration with
  | None => []
  | Some e => [ {| types := flattenStringList (Types e) |} ]
  end.

(** The request [resourceAwsApiGatewayRestApiCreate] builds before it
    calls the service: the code from the declaration of [description] to
    the assignment of [params.MinimumCompressionSize]. *)
Definition createParams (d : ResourceData) : CreateRestApiInput :=
  let description_ :=
    if negb (Get description d =? "")%string
    then aws.String (Get description d)
    else None in
  let params_Name := aws.String (Get name d) in
  let params_Description := description_ in
  let params_EndpointConfiguration :=
    let (v, ok) := GetOk_list endpoint_configuration d in
    if ok then expandApiGatewayEndpointConfiguration v else None in
  let params_Policy :=
    let (v, ok) := GetOk_string policy d in
    if ok && negb (v =? "")%string then aws.String v else None in
  let params_BinaryMediaTypes :=
    let (binaryMediaTypes, binaryMediaTypesOk) :=
      GetOk_list binary_media_types d in
    if binaryMediaTypesOk then Some (expandStringList binaryMediaTypes)
    else None in
  let minimumCompressionSize := Get minimum_compression_size d in
  let params_MinimumCompressionSize :=
    if (minimumCompressionSize >? -1)%Z
    then aws.Int64 minimumCompressionSize
    else None in
  {| cra_BinaryMediaTypes := params_BinaryMediaTypes;
     cra_Description := params_Description;
     cra_EndpointConfiguration := params_EndpointConfiguration;
     cra_MinimumCompressionSize := params_MinimumCompressionSize;
     cra_Name := params_Name;
     cra_Policy := params_Policy |}.

(** The loop of [resourceAwsApiGatewayRestApiRefreshResources] over the
    items of the listing, left at the first item whose path is the
    root. *)
Fixpoint scanItems (items : list Resource) : M S unit :=
  match items with
  | [] => ret tt
  | item :: rest =>
    path <- deref (res_Path item) ;;
    if (path =? "/")%string
    then modifyData (Set_ (with_root_resource_id
                             (aws.StringValue (res_Id item))))
    else scanItems rest
  end.

Definition resourceAwsApiGatewayRestApiRefreshResources : M S unit :=
  d <- getData ;;
  r <- call (CallGetResources (aws.String (Id d)))
            (GetResources conn (aws.String (Id d))) ;;
  match r with
  | Failure err => throw err
  | Success resp => scanItems resp
  end.

Definition resourceAwsApiGatewayRestApiRead : M S unit :=
  d <- getData ;;
  r <- call (CallGetRestApi (aws.String (Id d)))
            (GetRestApi conn (aws.String (Id d))) ;;
  match r with
  | Failure err =>
    match err with
    | awserr_Error code _ =>
      if (code =? "NotFoundException")%string
      then modifyData (SetId "")
      else throw err
    | _ => throw err
    end
  | Success api =>
    modifyData (Set_ (with_name (aws.StringValue (ra_Name api)))) ;;
    modifyData (Set_ (with_description
                        (aws.StringValue (ra_Description api)))) ;;
    match strconv.Unquote
            (String dquote (aws.StringValue (ra_Policy api))
             ++ String dquote EmptyString)%string with
    | Failure err => throw (fmt_Errorf "error unescaping policy: " err)
    | Success policy_ =>
      modifyData (Set_ (with_policy policy_)) ;;
      modifyData (Set_ (with_binary_media_types
                          (ra_BinaryMediaTypes api))) ;;
      d <- getData ;;
      let arn := arn_String (partition meta) "execute-api" (region meta)
                            (accountid meta) (Id d) in
      modifyData (Set_ (with_execution_arn arn)) ;;
      match ra_MinimumCompressionSize api with
      | None => modifyData (Set_ (with_minimum_compression_size (-1)))
      | Some v => modifyData (Set_ (with_minimum_compression_size v))
      end ;;
      createdDate <- deref (ra_CreatedDate api) ;;
      modifyData (Set_ (with_created_date (Format_RFC3339 createdDate))) ;;
      modifyData
        (Set_ (with_endpoint_configuration
                 (flattenApiGatewayEndpointConfiguration
                    (ra_EndpointConfiguration api))))
    end
  end.

Definition resourceAwsApiGatewayRestApiCreate : M S unit :=
  d <- getData ;;
  let params := createParams d in
  r <- call (CallCreateRestApi params) (CreateRestApi conn params) ;;
  match r with
  | Failure err => throw (fmt_Errorf "Error creating API Gateway: " err)
  | Success gateway =>
    id <- deref (ra_Id gateway) ;;
    modifyData (SetId id) ;;
    d <- getData ;;
    (let (body_, ok) := GetOk_string body d in
     if ok then
       let input := {| pra_Body := body_;
                       pra_Mode := aws.String PutModeOverwrite;
                       pra_RestApiId := ra_Id gateway |} in
       r <- call (CallPutRestApi input) (PutRestApi conn input) ;;
       match r with
       | Failure err =>
         throw (errwrap_Wrapf
                  "Error creating API Gateway specification: " err)
       | Success _ => ret tt
       end
     else ret tt) ;;
    resourceAwsApiGatewayRestApiRefreshResources ;;
    resourceAwsApiGatewayRestApiRead
  end.

(** [None] of the translation is a panic of the Go function. *)
Definition updateOperations : M S (list PatchOperation) :=
  d <- getData ;;
  match resourceAwsApiGatewayRestApiUpdateOperations escapeJsonPointer d with
  | Some operations => ret operations
  | None => panic
  end.

Definition resourceAwsApiGatewayRestApiUpdate : M S unit :=
  d <- getData ;;
  (if HasChange DeepEqual_string body d then
     let (body_, ok) := GetOk_string body d in
     if ok then
       let input := {| pra_Body := body_;
                       pra_Mode := aws.String PutModeOverwrite;
                       pra_RestApiId := aws.String (Id d) |} in
       r <- call (CallPutRestApi input) (PutRestApi conn input) ;;
       match r with
       | Failure err =>
         throw (errwrap_Wrapf
                  "Error updating API Gateway specification: " err)
       | Success _ => ret tt
       end
     else ret tt
   else ret tt) ;;
  operations <- updateOperations ;;
  let input := {| ura_PatchOperations := operations;
                  ura_RestApiId := aws.String (Id d) |} in
  r <- call (CallUpdateRestApi input) (UpdateRestApi conn input) ;;
  match r with
  | Failure err => throw err
  | Success _ => resourceAwsApiGatewayRestApiRead
  end.

(** The function [resourceAwsApiGatewayRestApiDelete] hands to the retry
    helper. *)
Definition deleteAttempt : M S (option RetryError) :=
  d <- getData ;;
  r <- call (CallDeleteRestApi (aws.String (Id d)))
            (DeleteRestApi conn (aws.String (Id d))) ;;
  match r with
  | Success _ => ret None
  | Failure err =>
    match err with
    | awserr_Error code _ =>
      if (code =? "NotFoundException")%string then ret None
      else ret (Some (NonRetryableError err))
    | _ => ret (Some (NonRetryableError err))
    end
  end.

Definition resourceAwsApiGatewayRestApiDelete : M S unit :=
  Retry (rounds_within (10 * time_Minute)) deleteAttempt.

End Handler.

Arguments scanItems {S} items.
Arguments resourceAwsApiGatewayRestApiRefreshResources {time_Time S} conn.
Arguments resourceAwsApiGatewayRestApiRead
  {time_Time} Format_RFC3339 flattenStringList {S} conn meta.
Arguments resourceAwsApiGatewayRestApiCreate
  {time_Time} Format_RFC3339 expandStringList flattenStringList {S} conn meta.
Arguments updateOperations escapeJsonPointer {S}.
Arguments resourceAwsApiGatewayRestApiUpdate
  {time_Time} Format_RFC3339 flattenStringList escapeJsonPointer {S} conn meta.
Arguments deleteAttempt {time_Time S} conn.
Arguments resourceAwsApiGatewayRestApiDelete {time_Time S} conn rounds_within.

(** ** The patch operations, field by field

    The groups of operations as the specification words them, to be
    compared with what [resourceAwsApiGatewayRestApiUpdateOperations]
    builds. *)

Definition replace_op (path value : string) : PatchOperation :=
  {| From := None; Op := Some "replace"; Path := Some path;
     Value := Some value |}.

Section Groups.

Variable escapeJsonPointer : string -> string.

Definition remove_op (v : string) : PatchOperation :=
  {| From := None; Op := Some "remove";
     Path := Some ("/binaryMediaTypes/" ++ escapeJsonPointer v)%string;
     Value := None |}.

Definition add_op (v : string) : PatchOperation :=
  {| From := None; Op := Some "add";
     Path := Some ("/binaryMediaTypes/" ++ escapeJsonPointer v)%string;
     Value := None |}.

(** Scalar fields: a single replace with the new value. *)
Definition spec_group_name (d : ResourceData) : list PatchOperation :=
  if HasChange DeepEqual_string name d
  then [replace_op "/name" (name (planned d))] else [].

Definition spec_group_description (d : ResourceData) : list PatchOperation :=
  if HasChange DeepEqual_string description d
  then [replace_op "/description" (description (planned d))] else [].

Definition spec_group_policy (d : ResourceData) : list PatchOperation :=
  if HasChange DeepEqual_string policy d
  then [replace_op "/policy" (policy (planned d))] else [].

(** Minimum compression size: a single replace, with the empty string
    when the new value is the sentinel -1 and the decimal string of the
    new value otherwise. *)
Definition spec_group_minimum_compression_size (d : ResourceData)
    : list PatchOperation :=
  if HasChange DeepEqual_int minimum_compression_size d
  then [replace_op "/minimumCompressionSize"
          (if (minimum_compression_size (planned d) =? -1)%Z then ""
           else strconv.Itoa (minimum_compression_size (planned d)))]
  else [].

(** Binary media types: one remove per old entry, then one add per new
    entry. *)
Definition spec_group_binary_media_types (d : ResourceData)
    : list PatchOperation :=
  if HasChange DeepEqual_list binary_media_types d
  then map remove_op (binary_media_types (prior d))
       ++ map add_op (binary_media_types (planned d))
  else [].

(** Endpoint configuration type: patched only if the new configuration
    is not empty. *)
Definition spec_group_endpoint_configuration (d : ResourceData)
    : list PatchOperation :=
  if HasChange DeepEqual_list endpoint_configuration_0_types d
  then match endpoint_configuration (planned d) with
       | [] => []
       | m :: _ => [replace_op "/endpointConfiguration/types/0"
                      (hd "" (types m))]
       end
  else [].

Definition spec_UpdateOperations (d : ResourceData) : list PatchOperation :=
  spec_group_name d ++ spec_group_description d ++ spec_group_policy d
  ++ spec_group_minimum_compression_size d
  ++ spec_group_binary_media_types d
  ++ spec_group_endpoint_configuration d.

End Groups.

(** The mutable fields, in the order of the specification. *)
Inductive Field :=
| FName | FDescription | FPolicy | FMinimumCompressionSize
| FBinaryMediaTypes | FEndpointConfigurationType.

Definition rank (f : Field) : nat :=
  match f with
  | FName => 0
  | FDescription => 1
  | FPolicy => 2
  | FMinimumCompressionSize => 3
  | FBinaryMediaTypes => 4
  | FEndpointConfigurationType => 5
  end.

Definition changed (f : Field) (d : ResourceData) : bool :=
  match f with
  | FName => HasChange DeepEqual_string name d
  | FDescription => HasChange DeepEqual_string description d
  | FPolicy => HasChange DeepEqual_string policy d
  | FMinimumCompressionSize => HasChange DeepEqual_int minimum_compression_size d
  | FBinaryMediaTypes => HasChange DeepEqual_list binary_media_types d
  | FEndpointConfigurationType =>
      HasChange DeepEqual_list endpoint_configuration_0_types d
  end.

(** The field a patch operation addresses, read off its path. *)
Definition field_of_path (p : string) : option Field :=
  if (p =? "/name")%string then Some FName
  else if (p =? "/description")%string then Some FDescription
  else if (p =? "/policy")%string then Some FPolicy
  else if (p =? "/minimumCompressionSize")%string
  then Some FMinimumCompressionSize
  else if String.prefix "/binaryMediaTypes/" p then Some FBinaryMediaTypes
  else if (p =? "/endpointConfiguration/types/0")%string
  then Some FEndpointConfigurationType
  else None.

Definition field_of (op : PatchOperation) : option Field :=
  match Path op with
  | Some p => field_of_path p
  | None => None
  end.

Definition addresses (f : Field) (op : PatchOperation) : bool :=
  match field_of op with
  | Some g => (rank f =? rank g)%nat
  | None => false
  end.

(** The position of an operation in the fixed order of the fields. *)
Definition rank_of (op : PatchOperation) : nat :=
  match field_of op with
  | Some f => rank f
  | None => 6
  end.

(** What the schema checks before any callback runs: every endpoint
    configuration block names a type ([MinItems] of [types]), and the
    minimum compression size lies in the declared range. *)
Definition schema_ok (a : Attributes) : bool :=
  forallb (fun m => (0 <? length (types m))%nat) (endpoint_configuration a)
  && ((-1 <=? minimum_compression_size a)%Z
      && (minimum_compression_size a <=? 10485760)%Z).

(** The value the code sends for a minimum compression size. *)
Definition compression_value (z : Z) : string :=
  if (z >? -1)%Z then strconv.Itoa z else "".

(** The group of a field, as the code builds it: the specification's,
    except that the code compares the compression size with -1 by [>]. *)
Definition group (escapeJsonPointer : string -> string) (f : Field)
    (d : ResourceData) : list PatchOperation :=
  match f with
  | FName => spec_group_name d
  | FDescription => spec_group_description d
  | FPolicy => spec_group_policy d
  | FMinimumCompressionSize =>
      if HasChange DeepEqual_int minimum_compression_size d
      then [replace_op "/minimumCompressionSize"
              (compression_value (minimum_compression_size (planned d)))]
      else []
  | FBinaryMediaTypes => spec_group_binary_media_types escapeJsonPointer d
  | FEndpointConfigurationType => spec_group_endpoint_configuration d
  end.

Definition groups (escapeJsonPointer : string -> string) (d : ResourceData)
    : list PatchOperation :=
  group escapeJsonPointer FName d
  ++ group escapeJsonPointer FDescription d
  ++ group escapeJsonPointer FPolicy d
  ++ group escapeJsonPointer FMinimumCompressionSize d
  ++ group escapeJsonPointer FBinaryMediaTypes d
  ++ group escapeJsonPointer FEndpointConfigurationType d.

(** Whether the translation panics: the endpoint type changed and the
    first block of the new configuration has no type. *)
Definition panics (d : ResourceData) : bool :=
  HasChange DeepEqual_list endpoint_configuration_0_types d
  && match endpoint_configuration (planned d) with
     | m :: _ => match types m with [] => true | _ => false end
     | [] => false
     end.

(** A computation only adds calls to the trace, all of them of the kind
    [P]; it never rewrites the calls already made. *)
Definition emits {S A} (P : Call -> Prop) (c : M S A) : Prop :=
  forall m, exists rest,
    trace (snd (c m)) = trace m ++ rest /\ Forall P rest.

Definition any_call (c : Call) : Prop := True.

Definition is_lookup (c : Call) : Prop :=
  match c with CallGetRestApi _ => True | _ => False end.

Definition is_overwrite (c : Call) : Prop :=
  match c with CallPutRestApi _ => True | _ => False end.

(** The test of the read and delete callbacks on the error of a call: an
    error of the SDK whose code is [NotFoundException]. *)
Definition isNotFound (err : error) : bool :=
  match err with
  | awserr_Error code _ => (code =? "NotFoundException")%string
  | _ => false
  end.

(** ** The escaping of the policy by the remote service *)

(** Modelled from the spec: the escaping of the policy is done by the
    remote service, which is not code of this repository. The specification
    speaks of a JSON document that has been string-escaped one extra level,
    with backslash-escaped quotes; this is the escaping of the content of a
    JSON string literal, which puts a backslash before each quotation mark
    and each backslash and writes the control characters, which a string
    literal cannot hold as they are, as their short escapes or as
    [\u00XX]. Every other byte stays as it is. *)
Definition hex_digit (n : Z) : ascii :=
  if (n <? 10)%Z then byte (byte_val "0" + n)
  else byte (byte_val "a" + (n - 10)).

Definition escapeByte (c : ascii) : string :=
  if Ascii.eqb c dquote then String backslash (String dquote EmptyString)
  else if Ascii.eqb c backslash
  then String backslash (String backslash EmptyString)
  else if (byte_val c =? 8)%Z then String backslash "b"
  else if (byte_val c =? 12)%Z then String backslash "f"
  else if (byte_val c =? 10)%Z then String backslash "n"
  else if (byte_val c =? 13)%Z then String backslash "r"
  else if (byte_val c =? 9)%Z then String backslash "t"
  else if (byte_val c <? 32)%Z then
    String backslash
      (String "u" (String "0" (String "0"
        (String (hex_digit (Z.shiftr (byte_val c) 4))
          (String (hex_digit (Z.land (byte_val c) 15)) EmptyString)))))
  else String c EmptyString.

Fixpoint escapeOneLevel (s : string) : string :=
  match s with
  | EmptyString => EmptyString
  | String c t => (escapeByte c ++ escapeOneLevel t)%string
  end.

(** The text between two quotation marks, as the read callback hands it to
    [strconv.Unquote]. *)
Definition quoted (s : string) : string :=
  (String dquote s ++ String dquote EmptyString)%string.

(** The valid encodings of two, three and four bytes, by the values of
    their bytes. *)
Definition continuation (b : Z) : Prop := (0x80 <= b <= 0xBF)%Z.

(** The range of the second byte, by the first one. *)
Definition second_lo (b0 : Z) : Z :=
  if (b0 =? 0xE0)%Z then 0xA0%Z else if (b0 =? 0xF0)%Z then 0x90%Z else 0x80%Z.

Definition second_hi (b0 : Z) : Z :=
  if (b0 =? 0xED)%Z then 0x9F%Z else if (b0 =? 0xF4)%Z then 0x8F%Z else 0xBF%Z.

Definition encoding2 (b0 b1 : Z) : Prop :=
  (0xC2 <= b0 <= 0xDF)%Z /\ continuation b1.

Definition encoding3 (b0 b1 b2 : Z) : Prop :=
  (0xE0 <= b0 <= 0xEF)%Z
  /\ (second_lo b0 <= b1 <= second_hi b0)%Z
  /\ continuation b2.

Definition encoding4 (b0 b1 b2 b3 : Z) : Prop :=
  (0xF0 <= b0 <= 0xF4)%Z
  /\ (second_lo b0 <= b1 <= second_hi b0)%Z
  /\ continuation b2 /\ continuation b3.

(** The runes they encode. *)
Definition rune2 (b0 b1 : Z) : Z :=
  ((b0 - 0xC0) * 64 + (b1 - 0x80))%Z.

Definition rune3 (b0 b1 b2 : Z) : Z :=
  ((b0 - 0xE0) * 4096 + (b1 - 0x80) * 64 + (b2 - 0x80))%Z.

Definition rune4 (b0 b1 b2 b3 : Z) : Z :=
  ((b0 - 0xF0) * 262144 + (b1 - 0x80) * 4096 + (b2 - 0x80) * 64
   + (b3 - 0x80))%Z.

(** ** Concrete resources and services *)

Module Examples.

Definition attributes0 : Attributes :=
  {| name := "api"; description := ""; policy := "";
     binary_media_types := []; body := "";
     minimum_compression_size := -1;
     root_resource_id := ""; created_date := ""; execution_arn := "";
     endpoint_configuration := [ {| types := ["EDGE"] |} ] |}.

Definition resource (old new : Attributes) : ResourceData :=
  {| Id := "a1b2c3"; prior := old; planned := new |}.

(** Compression enabled at 5 bytes before, disabled now. *)
Definition compression_disabled : ResourceData :=
  resource (with_minimum_compression_size 5 attributes0) attributes0.

(** Binary media types [a, b] before, [b, c] now. *)
Definition media_types_changed : ResourceData :=
  resource (with_binary_media_types ["a"; "b"] attributes0)
           (with_binary_media_types ["b"; "c"] attributes0).

(** An endpoint configuration before, none now. *)
Definition endpoint_cleared : ResourceData :=
  resource attributes0 (with_endpoint_configuration [] attributes0).

(** The endpoint type changed from EDGE to REGIONAL, with a new name. *)
Definition endpoint_regional : ResourceData :=
  resource attributes0
    (with_name "api2"
       (with_endpoint_configuration [ {| types := ["REGIONAL"] |} ]
          attributes0)).

Definition with_body (v : string) (a : Attributes) : Attributes :=
  {| name := name a; description := description a; policy := policy a;
     binary_media_types := binary_media_types a; body := v;
     minimum_compression_size := minimum_compression_size a;
     root_resource_id := root_resource_id a; created_date := created_date a;
     execution_arn := execution_arn a;
     endpoint_configuration := endpoint_configuration a |}.

(** A definition document before, none now. *)
Definition body_removed : ResourceData :=
  resource (with_body "{}" attributes0) attributes0.

(** No definition document before, one now. *)
Definition body_added : ResourceData :=
  resource attributes0 (with_body "{}" attributes0).

Definition restApi (p : option string) : RestApi unit :=
  {| ra_BinaryMediaTypes := [];
     ra_CreatedDate := Some tt;
     ra_Description := None;
     ra_EndpointConfiguration := Some {| Types := ["EDGE"] |};
     ra_Id := Some "a1b2c3";
     ra_MinimumCompressionSize := None;
     ra_Name := Some "api";
     ra_Policy := p |}.

Definition throttled : error :=
  awserr_Error "TooManyRequestsException"
               "TooManyRequestsException: Too Many Requests".

Definition notFound : error :=
  awserr_Error "NotFoundException"
               "NotFoundException: Invalid API identifier specified".

(** A service whose state counts the delete calls it has received. It
    answers the [n]-th of them by [delete n], a lookup by [lookup], and
    accepts everything else. *)
Definition service (lookup : response (RestApi unit))
    (delete : nat -> response unit) : Service unit nat :=
  {| CreateRestApi := fun _ s => (Success (restApi None), s);
     PutRestApi := fun _ s => (Success (restApi None), s);
     GetResources := fun _ s =>
       (Success [ {| res_Id := Some "root"; res_Path := Some "/" |} ], s);
     GetRestApi := fun _ s => (lookup, s);
     UpdateRestApi := fun _ s => (Success (restApi None), s);
     DeleteRestApi := fun _ s => (delete s, Datatypes.S s) |}.

(** Every call succeeds. *)
Definition steady : Service unit nat :=
  service (Success (restApi None)) (fun _ => Success tt).

(** The first delete call is throttled, the later ones succeed. *)
Definition throttled_once : Service unit nat :=
  service (Success (restApi None))
          (fun n => match n with O => Failure throttled | _ => Success tt end).

(** A policy document, and a service that returns it escaped. *)
Definition policy_document : string :=
  ("{" ++ String dquote "Version" ++ String dquote ":"
       ++ String dquote "2012-10-17" ++ String dquote "}")%string.

Definition escaping : Service unit nat :=
  service (Success (restApi (Some (escapeOneLevel policy_document))))
          (fun _ => Success tt).

(** The REST API is gone. *)
Definition gone : Service unit nat :=
  service (Failure notFound) (fun _ => Failure notFound).

Definition client : AWSClient :=
  {| partition := "aws"; region := "us-east-1"; accountid := "123456789012" |}.

Definition machine (d : ResourceData) : Machine nat :=
  {| data := d; remote := O; trace := [] |}.

Definition no_escape (s : string) : string := s.

Definition same_list (l : list string) : list string := l.

Definition format (_ : unit) : string := "2018-01-01T00:00:00Z".

(** Room for a hundred calls within any timeout. *)
Definition hundred (_ : Z) : nat := 100.

End Examples.

(** ** Further vocabulary for the runs of the callbacks *)

(** The test of the discovery loop on an item of the listing: its path is
    the root. *)
Definition is_root (item : Resource) : bool :=
  match res_Path item with
  | Some path => (path =? "/")%string
  | None => false
  end.

Definition has_path (item : Resource) : Prop := res_Path item <> None.

(** The kinds of calls that follow the first calls of a create. *)
Definition is_listing_or_lookup (c : Call) : Prop :=
  match c with
  | CallGetResources _ | CallGetRestApi _ => True
  | _ => False
  end.

Definition is_delete (c : Call) : Prop :=
  match c with CallDeleteRestApi _ => True | _ => False end.

(** The shape of a patch operation the remote service accepts: no [from],
    a path from the root, and a value exactly for a replace. *)
Definition well_formed (op : PatchOperation) : bool :=
  match From op, Op op, Path op with
  | None, Some o, Some p =>
    String.prefix "/" p
    && (if (o =? "replace")%string
        then match Value op with Some _ => true | None => false end
        else ((o =? "remove")%string || (o =? "add")%string)
             && match Value op with Some _ => false | None => true end)
  | _, _, _ => false
  end.

(** What the first block of an endpoint configuration contributes to a
    request or to the state: its types, after the helper of the
    direction. *)
Definition first_block_types (f : list string -> list string)
    (l : list EndpointConfigurationBlock) : option (list string) :=
  match l with
  | [] => None
  | m :: _ => Some (f (types m))
  end.

(** Further resources and services. *)
Module Cases.

Definition failure : error :=
  awserr_Error "BadRequestException" "BadRequestException: Invalid request".

(** A service that answers a create, an overwrite and a patch as told,
    and is like the steady one otherwise. *)
Definition service (create put update : response (RestApi unit))
    (lookup : response (RestApi unit)) : Service unit nat :=
  {| CreateRestApi := fun _ s => (create, s);
     PutRestApi := fun _ s => (put, s);
     GetResources := fun _ s =>
       (Success [ {| res_Id := Some "other"; res_Path := Some "/pets" |};
                  {| res_Id := Some "root"; res_Path := Some "/" |};
                  {| res_Id := Some "late"; res_Path := Some "/" |} ], s);
     GetRestApi := fun _ s => (lookup, s);
     UpdateRestApi := fun _ s => (update, s);
     DeleteRestApi := fun _ s => (Success tt, Datatypes.S s) |}.

Definition ok : response (RestApi unit) := Success (Examples.restApi None).

Definition create_fails : Service unit nat :=
  service (Failure failure) ok ok ok.

Definition overwrite_fails : Service unit nat :=
  service ok (Failure failure) ok ok.

Definition patch_fails : Service unit nat :=
  service ok ok (Failure failure) ok.

Definition all_fine : Service unit nat := service ok ok ok ok.

(** The lookup answers a policy that holds a line feed. *)
Definition policy_with_newline : string :=
  String "{" (String newline "}").

Definition newline_policy : Service unit nat :=
  service ok ok ok (Success (Examples.restApi (Some policy_with_newline))).

(** The lookup answers a compression size of 1024 bytes. *)
Definition compressed : RestApi unit :=
  {| ra_BinaryMediaTypes := [];
     ra_CreatedDate := Some tt;
     ra_Description := None;
     ra_EndpointConfiguration := Some {| Types := ["EDGE"] |};
     ra_Id := Some "a1b2c3";
     ra_MinimumCompressionSize := Some 1024%Z;
     ra_Name := Some "api";
     ra_Policy := None |}.

Definition compressing : Service unit nat :=
  service ok ok ok (Success compressed).

Definition unchanged : ResourceData :=
  Examples.resource Examples.attributes0 Examples.attributes0.

(** A compression size of 0 now, and of 10 now, after none. *)
Definition compression_0 : ResourceData :=
  Examples.resource Examples.attributes0
    (with_minimum_compression_size 0 Examples.attributes0).

Definition compression_10 : ResourceData :=
  Examples.resource Examples.attributes0
    (with_minimum_compression_size 10 Examples.attributes0).

(** A new endpoint configuration whose block names no type. *)
Definition endpoint_without_type : ResourceData :=
  Examples.resource Examples.attributes0
    (with_endpoint_configuration [ {| types := [] |} ] Examples.attributes0).

End Cases.

(** ** The translation into patch operations *)

Section UpdateOperationsFacts.

Variable escapeJsonPointer : string -> string.

(** A loop that appends one operation per element appends their map. *)
Lemma fold_left_append {A B} (f : A -> B) (l : list A) (acc : list B) :
  fold_left (fun operations v => operations ++ [f v]) l acc
  = acc ++ map f l.
Proof.
  revert acc. induction l as [|v l IH]; intros acc; simpl.
  - now rewrite app_nil_r.
  - rewrite IH, <- app_assoc. reflexivity.
Qed.

Lemma endpoint_group_shape (d : ResourceData) (ops : list PatchOperation) :
  (if HasChange DeepEqual_list endpoint_configuration_0_types d then
     let (v, ok) := GetOk_list endpoint_configuration d in
     if ok && (0 <? length v)%nat then
       match v with
       | m :: _ =>
         match types m with
         | t :: _ =>
           Some (ops ++ [ {| From := None; Op := aws.String "replace";
                             Path := aws.String "/endpointConfiguration/types/0";
                             Value := aws.String t |} ])
         | [] => None
         end
       | [] => None
       end
     else Some ops
   else Some ops)
  = if panics d then None
    else Some (ops ++ spec_group_endpoint_configuration d).
Proof.
  unfold panics, spec_group_endpoint_configuration, GetOk_list, Get.
  destruct (HasChange DeepEqual_list endpoint_configuration_0_types d);
    simpl; [|now rewrite app_nil_r].
  destruct (endpoint_configuration (planned d)) as [|m l]; simpl;
    [now rewrite app_nil_r|].
  destruct (types m); reflexivity.
Qed.

(** The translation panics, or returns the concatenation of the groups
    of the six fields, in their fixed order. *)
Lemma UpdateOperations_groups (d : ResourceData) :
  resourceAwsApiGatewayRestApiUpdateOperations escapeJsonPointer d
  = if panics d then None else Some (groups escapeJsonPointer d).
Proof.
  unfold resourceAwsApiGatewayRestApiUpdateOperations.
  rewrite endpoint_group_shape.
  destruct (panics d); [reflexivity|]. f_equal.
  unfold groups, group, spec_group_name, spec_group_description,
    spec_group_policy, spec_group_binary_media_types, compression_value,
    Get, GetChange.
  rewrite !fold_left_append.
  assert (Hnew : forall (ops : list PatchOperation) (new : list string),
    (if (0 <? length new)%nat
     then ops ++ map (fun v => {| From := None; Op := aws.String "add";
                                  Path := aws.String (Sprintf_path escapeJsonPointer "binaryMediaTypes" v);
                                  Value := None |}) new
     else ops) = ops ++ map (add_op escapeJsonPointer) new).
  { intros ops [|v new]; simpl; [now rewrite app_nil_r|reflexivity]. }
  destruct (HasChange DeepEqual_string name d),
           (HasChange DeepEqual_string description d),
           (HasChange DeepEqual_string policy d),
           (HasChange DeepEqual_int minimum_compression_size d),
           (HasChange DeepEqual_list binary_media_types d);
    rewrite ?fold_left_append, ?Hnew; simpl;
    rewrite <- ?app_assoc; reflexivity.
Qed.

(** A configuration the schema accepts does not make the translation
    panic. *)
Lemma schema_ok_no_panic (d : ResourceData) :
  schema_ok (planned d) = true -> panics d = false.
Proof.
  unfold schema_ok, panics. intros H.
  apply andb_true_iff in H as [H _].
  destruct (endpoint_configuration (planned d)) as [|m l];
    [apply andb_false_r|].
  simpl in H. apply andb_true_iff in H as [H _].
  destruct (types m); [discriminate|apply andb_false_r].
Qed.

(** In the declared range the code's value for the compression size is
    the specification's. *)
Lemma groups_spec (d : ResourceData) :
  (-1 <= minimum_compression_size (planned d))%Z ->
  groups escapeJsonPointer d = spec_UpdateOperations escapeJsonPointer d.
Proof.
  intros Hz. unfold groups, spec_UpdateOperations, group,
    spec_group_minimum_compression_size, compression_value.
  destruct (Z.gtb_spec (minimum_compression_size (planned d)) (-1)),
           (Z.eqb_spec (minimum_compression_size (planned d)) (-1));
    try reflexivity; lia.
Qed.

(** *** The field each operation addresses *)

Lemma field_of_remove (v : string) :
  field_of (remove_op escapeJsonPointer v) = Some FBinaryMediaTypes.
Proof.
  unfold field_of, remove_op; simpl.
  destruct (escapeJsonPointer v); reflexivity.
Qed.

Lemma field_of_add (v : string) :
  field_of (add_op escapeJsonPointer v) = Some FBinaryMediaTypes.
Proof.
  unfold field_of, add_op; simpl.
  destruct (escapeJsonPointer v); reflexivity.
Qed.

Lemma filter_all {A} (p : A -> bool) (l : list A) :
  (forall x, In x l -> p x = true) -> filter p l = l.
Proof.
  induction l as [|a l IH]; simpl; intros H; [reflexivity|].
  rewrite (H a (or_introl eq_refl)), IH; auto.
Qed.

Lemma filter_none {A} (p : A -> bool) (l : list A) :
  (forall x, In x l -> p x = false) -> filter p l = [].
Proof.
  induction l as [|a l IH]; simpl; intros H; [reflexivity|].
  rewrite (H a (or_introl eq_refl)), IH; auto.
Qed.

(** Every operation of the group of [g] addresses [g]. *)
Lemma group_addresses (g : Field) (d : ResourceData) (op : PatchOperation) :
  In op (group escapeJsonPointer g d) -> field_of op = Some g.
Proof.
  destruct g; unfold group, spec_group_name, spec_group_description,
    spec_group_policy, spec_group_binary_media_types,
    spec_group_endpoint_configuration.
  1-4: match goal with |- context [if ?c then _ else _] => destruct c end;
       simpl; [intros [<-|[]]; reflexivity|intros []].
  - destruct (HasChange _ _ _); [|intros []].
    rewrite in_app_iff, !in_map_iff.
    intros [[v [<- _]]|[v [<- _]]];
      [apply field_of_remove|apply field_of_add].
  - destruct (HasChange _ _ _); [|intros []].
    destruct (endpoint_configuration (planned d)); [intros []|].
    intros [<-|[]]; reflexivity.
Qed.

Lemma filter_group (f g : Field) (d : ResourceData) :
  filter (addresses f) (group escapeJsonPointer g d)
  = if (rank f =? rank g)%nat then group escapeJsonPointer g d else [].
Proof.
  destruct (rank f =? rank g)%nat eqn:E.
  - apply filter_all. intros op Hop. unfold addresses.
    now rewrite (group_addresses _ _ _ Hop).
  - apply filter_none. intros op Hop. unfold addresses.
    now rewrite (group_addresses _ _ _ Hop).
Qed.

(** The operations that address a field are the group of that field. *)
Lemma filter_groups (f : Field) (d : ResourceData) :
  filter (addresses f) (groups escapeJsonPointer d)
  = group escapeJsonPointer f d.
Proof.
  unfold groups. rewrite !filter_app, !filter_group.
  destruct f; simpl; rewrite ?app_nil_r; reflexivity.
Qed.

(** The group of an unchanged field is empty. *)
Lemma group_unchanged (f : Field) (d : ResourceData) :
  changed f d = false -> group escapeJsonPointer f d = [].
Proof.
  destruct f; simpl; unfold spec_group_name, spec_group_description,
    spec_group_policy, spec_group_binary_media_types,
    spec_group_endpoint_configuration; intros ->; reflexivity.
Qed.

(** *** The order of the operations *)

Lemma map_rank_group (g : Field) (d : ResourceData) :
  map rank_of (group escapeJsonPointer g d)
  = repeat (rank g) (length (group escapeJsonPointer g d)).
Proof.
  assert (H : forall l, (forall op, In op l -> field_of op = Some g) ->
                        map rank_of l = repeat (rank g) (length l)).
  { induction l as [|op l IH]; simpl; intros H; [reflexivity|].
    unfold rank_of at 1. rewrite (H op (or_introl eq_refl)).
    f_equal. apply IH. intros; apply H; now right. }
  apply H. intros op. apply group_addresses.
Qed.

Lemma sorted_block (a n : nat) (l : list nat) :
  StronglySorted le l -> Forall (le a) l ->
  StronglySorted le (repeat a n ++ l) /\ Forall (le a) (repeat a n ++ l).
Proof.
  intros Hs Hf. induction n as [|n [IHs IHf]]; simpl; [now split|].
  split; constructor; auto.
Qed.

Lemma sorted_next_block (a b n : nat) (l : list nat) :
  a <= b ->
  StronglySorted le l /\ Forall (le b) l ->
  StronglySorted le (repeat a n ++ l) /\ Forall (le a) (repeat a n ++ l).
Proof.
  intros Hab [Hs Hf]. apply sorted_block; [assumption|].
  eapply Forall_impl; [|exact Hf]. intros; simpl in *; lia.
Qed.

(** The operations come in the order of the fields they address. *)
Lemma groups_sorted (d : ResourceData) :
  StronglySorted le (map rank_of (groups escapeJsonPointer d)).
Proof.
  unfold groups. rewrite !map_app, !map_rank_group. simpl rank.
  rewrite <- (app_nil_r (repeat 5 _)).
  apply (sorted_next_block 0 1); [lia|].
  apply (sorted_next_block 1 2); [lia|].
  apply (sorted_next_block 2 3); [lia|].
  apply (sorted_next_block 3 4); [lia|].
  apply (sorted_next_block 4 5); [lia|].
  apply sorted_block; constructor.
Qed.

End UpdateOperationsFacts.

(** ** Runs of the callbacks *)

Section Runs.

Variable time_Time : Type.
Variable Format_RFC3339 : time_Time -> string.
Variable expandStringList : list string -> list string.
Variable flattenStringList : list string -> list string.
Variable escapeJsonPointer : string -> string.
Variable S : Type.
Variable conn : Service time_Time S.
Variable meta : AWSClient.
Variable rounds_within : Z -> nat.

Section Emits.

Variable P : Call -> Prop.

Lemma emits_ret {A} (a : A) : emits P (@ret S A a).
Proof. intros m. exists []. now rewrite app_nil_r. Qed.

Lemma emits_throw {A} (e : error) : emits P (@throw S A e).
Proof. intros m. exists []. now rewrite app_nil_r. Qed.

Lemma emits_panic {A} : emits P (@panic S A).
Proof. intros m. exists []. now rewrite app_nil_r. Qed.

Lemma emits_getData : emits P (@getData S).
Proof. intros m. exists []. now rewrite app_nil_r. Qed.

Lemma emits_modifyData f : emits P (@modifyData S f).
Proof. intros m. exists []. simpl. now rewrite app_nil_r. Qed.

Lemma emits_deref {A} (p : option A) : emits P (@deref S A p).
Proof. destruct p; [apply emits_ret|apply emits_panic]. Qed.

Lemma emits_call {A} (c : Call) (op : S -> response A * S) :
  P c -> emits P (call c op).
Proof.
  intros Hc m. exists [c]. unfold call.
  destruct (op (remote m)); simpl. split; [reflexivity|].
  now constructor.
Qed.

Lemma emits_bind {A B} (c : M S A) (k : A -> M S B) :
  emits P c -> (forall a, emits P (k a)) -> emits P (bind c k).
Proof.
  intros Hc Hk m. unfold bind.
  destruct (Hc m) as [r1 [H1 F1]].
  destruct (c m) as [[a| e |] m'] eqn:E; simpl in *.
  - destruct (Hk a m') as [r2 [H2 F2]]. exists (r1 ++ r2). split.
    + now rewrite H2, H1, app_assoc.
    + apply Forall_app; now split.
  - now exists r1.
  - now exists r1.
Qed.

End Emits.

Lemma emits_any {A} (P : Call -> Prop) (c : M S A) :
  emits P c -> emits any_call c.
Proof.
  intros H m. destruct (H m) as [rest [E _]]. exists rest. split; [exact E|].
  apply Forall_forall. intros; exact I.
Qed.

Create HintDb emits.
Hint Resolve emits_ret emits_throw emits_panic emits_getData
  emits_modifyData emits_deref : emits.

Ltac emits_step :=
  match goal with
  | |- emits _ (bind _ _) => apply emits_bind; [|intros]
  | |- emits _ (call _ _) => apply emits_call; exact I
  | |- emits _ (match ?x with _ => _ end) => destruct x
  | |- emits _ _ => solve [auto with emits]
  end.

Lemma emits_scanItems P items : emits P (@scanItems S items).
Proof.
  induction items as [|item rest IH]; simpl; repeat emits_step.
Qed.

Lemma emits_RefreshResources :
  emits any_call (resourceAwsApiGatewayRestApiRefreshResources conn).
Proof.
  unfold resourceAwsApiGatewayRestApiRefreshResources.
  repeat emits_step. apply emits_scanItems.
Qed.

(** A read makes no call but lookups. *)
Lemma emits_Read :
  emits is_lookup (resourceAwsApiGatewayRestApiRead Format_RFC3339
                     flattenStringList conn meta).
Proof.
  unfold resourceAwsApiGatewayRestApiRead. repeat emits_step.
Qed.

(** A call followed by anything records the call first. *)
Lemma call_then {A B} P (c : Call) (op : S -> response A * S)
    (k : response A -> M S B) (m : Machine S) :
  (forall r, emits P (k r)) ->
  exists rest, trace (snd (bind (call c op) k m)) = trace m ++ c :: rest
               /\ Forall P rest.
Proof.
  intros Hk. unfold bind, call.
  destruct (op (remote m)) as [r s'].
  destruct (Hk r {| data := data m; remote := s'; trace := trace m ++ [c] |})
    as [rest [Hrest F]].
  exists rest. rewrite Hrest. simpl. now rewrite <- app_assoc.
Qed.

(** The first call of a create is [CreateRestApi], with the request
    built from the planned attributes. *)
Lemma Create_first_call (m : Machine S) :
  exists rest,
    trace (snd (resourceAwsApiGatewayRestApiCreate Format_RFC3339
                  expandStringList flattenStringList conn meta m))
    = trace m ++ CallCreateRestApi (createParams expandStringList (data m))
              :: rest.
Proof.
  unfold resourceAwsApiGatewayRestApiCreate.
  unfold bind at 1. unfold getData at 1.
  match goal with
  | |- context [bind (call ?c ?op) ?k m] =>
    destruct (call_then any_call c op k m) as [rest [E _]];
      [|exists rest; exact E]
  end.
  intros r. destruct r; repeat emits_step.
  - apply emits_RefreshResources.
  - apply (emits_any is_lookup), emits_Read.
Qed.

(** *** Delete *)

(** The retry helper does call again after an error that is reported as
    retryable, as long as the timeout leaves room. *)
Lemma Retry_after_retryable (f : M S (option RetryError)) (m m1 : Machine S)
    (r : RetryError) (n : nat) (last : option error) :
  f m = (Ok (Some r), m1) ->
  Retryable r = true ->
  Retry_rounds (Datatypes.S n) last f m = Retry_rounds n (Some (Err_ r)) f m1.
Proof.
  intros Hf Hr. cbn [Retry_rounds]. unfold bind at 1. now rewrite Hf, Hr.
Qed.

(** The function handed to the retry helper never reports a retryable
    error. *)
Lemma deleteAttempt_not_retryable (m : Machine S) (r : RetryError) :
  fst (deleteAttempt conn m) = Ok (Some r) -> Retryable r = false.
Proof.
  unfold deleteAttempt, bind, getData, call.
  destruct (DeleteRestApi conn (aws.String (Id (data m))) (remote m))
    as [[out|err] s']; [discriminate|].
  destruct err as [code text| | |]; simpl;
    try (intros [= <-]; reflexivity).
  destruct (code =? "NotFoundException")%string;
    [discriminate|intros [= <-]; reflexivity].
Qed.

(** With room for one call at least, a delete makes exactly one call,
    and ends with it: in success when the call succeeds or reports that
    the REST API is not found, and in the error of the call otherwise. *)
Lemma Delete_one_call (m : Machine S) :
  rounds_within (10 * time_Minute) <> O ->
  resourceAwsApiGatewayRestApiDelete conn rounds_within m
  = let (r, s') := DeleteRestApi conn (aws.String (Id (data m))) (remote m) in
    (match r with
     | Success _ => Ok tt
     | Failure err => if isNotFound err then Ok tt else Err err
     end,
     {| data := data m; remote := s';
        trace := trace m ++ [CallDeleteRestApi (aws.String (Id (data m)))] |}).
Proof.
  intros Hrounds. unfold resourceAwsApiGatewayRestApiDelete, Retry.
  destruct (rounds_within (10 * time_Minute)) as [|n]; [contradiction|].
  simpl. unfold bind, deleteAttempt, bind, getData, call.
  destruct (DeleteRestApi conn (aws.String (Id (data m))) (remote m))
    as [[out|err] s']; [reflexivity|].
  destruct err as [code text| | |]; simpl; try reflexivity.
  destruct (code =? "NotFoundException")%string; reflexivity.
Qed.

(** *** Read *)

(** A read whose lookup fails makes that one call, and ends with it: a
    not-found error clears the identifier and is no error of the read,
    any other error is the error of the read. *)
Lemma Read_lookup_failure (m : Machine S) (err : error) (s' : S) :
  GetRestApi conn (aws.String (Id (data m))) (remote m) = (Failure err, s') ->
  resourceAwsApiGatewayRestApiRead Format_RFC3339 flattenStringList
    conn meta m
  = (if isNotFound err then Ok tt else Err err,
     {| data := if isNotFound err then SetId "" (data m) else data m;
        remote := s';
        trace := trace m ++ [CallGetRestApi (aws.String (Id (data m)))] |}).
Proof.
  intros H. unfold resourceAwsApiGatewayRestApiRead.
  unfold bind, getData, call. rewrite H.
  destruct err as [code text| | |]; simpl; try reflexivity.
  destruct (code =? "NotFoundException")%string; reflexivity.
Qed.

(** A read whose lookup succeeds but whose policy cannot be unquoted
    ends in an error of its own, labelled as an unescaping error. *)
Lemma Read_unquote_failure (m : Machine S) (api : RestApi time_Time)
    (s' : S) (err : error) :
  GetRestApi conn (aws.String (Id (data m))) (remote m) = (Success api, s') ->
  strconv.Unquote (String dquote (aws.StringValue (ra_Policy api))
                   ++ String dquote EmptyString)%string = Failure err ->
  fst (resourceAwsApiGatewayRestApiRead Format_RFC3339 flattenStringList
         conn meta m)
  = Err (errors_New ("error unescaping policy: " ++ Error err)).
Proof.
  intros H U. unfold resourceAwsApiGatewayRestApiRead.
  unfold bind, getData, call, modifyData. rewrite H.
  cbv beta iota zeta. rewrite U. reflexivity.
Qed.

(** A read whose lookup succeeds and whose policy unquotes stores every
    attribute of the answer, the unquoted policy among them. *)
Lemma Read_success (m : Machine S) (api : RestApi time_Time) (s' : S)
    (policy_ : string) (t : time_Time) :
  GetRestApi conn (aws.String (Id (data m))) (remote m) = (Success api, s') ->
  strconv.Unquote (String dquote (aws.StringValue (ra_Policy api))
                   ++ String dquote EmptyString)%string = Success policy_ ->
  ra_CreatedDate api = Some t ->
  resourceAwsApiGatewayRestApiRead Format_RFC3339 flattenStringList
    conn meta m
  = (Ok tt,
     {| data :=
          {| Id := Id (data m);
             prior := prior (data m);
             planned :=
               {| name := aws.StringValue (ra_Name api);
                  description := aws.StringValue (ra_Description api);
                  policy := policy_;
                  binary_media_types := ra_BinaryMediaTypes api;
                  body := body (planned (data m));
                  minimum_compression_size :=
                    match ra_MinimumCompressionSize api with
                    | None => -1
                    | Some v => v
                    end;
                  root_resource_id := root_resource_id (planned (data m));
                  created_date := Format_RFC3339 t;
                  execution_arn :=
                    arn_String (partition meta) "execute-api" (region meta)
                               (accountid meta) (Id (data m));
                  endpoint_configuration :=
                    flattenApiGatewayEndpointConfiguration flattenStringList
                      (ra_EndpointConfiguration api) |} |};
        remote := s';
        trace := trace m ++ [CallGetRestApi (aws.String (Id (data m)))] |}).
Proof.
  intros H U D. unfold resourceAwsApiGatewayRestApiRead.
  unfold bind, getData, call, modifyData. rewrite H.
  cbv beta iota zeta. rewrite U, D.
  destruct (ra_MinimumCompressionSize api); reflexivity.
Qed.

(** *** Update *)

(** The rest of an update, after the handling of the body: the patch
    call, then lookups only. *)
Lemma Update_patch_call (d : ResourceData) (ops : list PatchOperation)
    (m : Machine S) :
  data m = d ->
  resourceAwsApiGatewayRestApiUpdateOperations escapeJsonPointer d = Some ops ->
  exists rest,
    trace (snd ((operations <- updateOperations escapeJsonPointer ;;
                 r <- call (CallUpdateRestApi
                              {| ura_PatchOperations := operations;
                                 ura_RestApiId := aws.String (Id d) |})
                           (UpdateRestApi conn
                              {| ura_PatchOperations := operations;
                                 ura_RestApiId := aws.String (Id d) |}) ;;
                 match r with
                 | Failure err => throw err
                 | Success _ =>
                   resourceAwsApiGatewayRestApiRead Format_RFC3339
                     flattenStringList conn meta
                 end)%go m))
    = trace m ++ CallUpdateRestApi
                   {| ura_PatchOperations := ops;
                      ura_RestApiId := aws.String (Id d) |} :: rest
    /\ Forall is_lookup rest.
Proof.
  intros Hd Hops. unfold bind at 1. unfold updateOperations.
  unfold bind at 1. unfold getData at 1. rewrite Hd, Hops.
  unfold ret at 1.
  apply call_then. intros r. destruct r; [apply emits_Read|apply emits_throw].
Qed.

(** An update whose body changed to a document that is not empty: the
    overwrite call comes first. Its failure ends the update, wrapped;
    after its success the patch call follows. *)
Lemma Update_overwrite (m : Machine S) :
  HasChange DeepEqual_string body (data m) = true ->
  body (planned (data m)) <> "" ->
  let input := {| pra_Body := body (planned (data m));
                  pra_Mode := aws.String PutModeOverwrite;
                  pra_RestApiId := aws.String (Id (data m)) |} in
  match PutRestApi conn input (remote m) with
  | (Failure err, s1) =>
    resourceAwsApiGatewayRestApiUpdate Format_RFC3339 flattenStringList
      escapeJsonPointer conn meta m
    = (Err (errwrap_Wrapped
              ("Error updating API Gateway specification: " ++ Error err)
              err),
       {| data := data m; remote := s1;
          trace := trace m ++ [CallPutRestApi input] |})
  | (Success _, s1) =>
    forall ops,
      resourceAwsApiGatewayRestApiUpdateOperations escapeJsonPointer (data m)
      = Some ops ->
      exists rest,
        trace (snd (resourceAwsApiGatewayRestApiUpdate Format_RFC3339
                      flattenStringList escapeJsonPointer conn meta m))
        = trace m ++ CallPutRestApi input
                  :: CallUpdateRestApi
                       {| ura_PatchOperations := ops;
                          ura_RestApiId := aws.String (Id (data m)) |}
                  :: rest
        /\ Forall is_lookup rest
  end.
Proof.
  intros Hchange Hbody input.
  destruct (PutRestApi conn input (remote m)) as [[out|err] s1] eqn:E.
  - intros ops Hops.
    unfold resourceAwsApiGatewayRestApiUpdate.
    unfold bind at 1. unfold getData at 1.
    rewrite Hchange. unfold GetOk_string, Get, DeepEqual_string.
    destruct (String.eqb_spec (body (planned (data m))) ""); [contradiction|].
    simpl negb. cbv iota.
    unfold bind at 1. unfold bind at 1. unfold call at 1.
    fold input. rewrite E. unfold ret at 1.
    match goal with
    | |- context [snd (?c ?m1)] =>
      destruct (Update_patch_call (data m) ops m1 eq_refl Hops)
        as [rest [Hrest F]]
    end.
    exists rest. split; [|exact F].
    rewrite Hrest. simpl. now rewrite <- app_assoc.
  - unfold resourceAwsApiGatewayRestApiUpdate.
    unfold bind at 1. unfold getData at 1.
    rewrite Hchange. unfold GetOk_string, Get, DeepEqual_string.
    destruct (String.eqb_spec (body (planned (data m))) ""); [contradiction|].
    simpl negb. cbv iota.
    unfold bind at 1. unfold bind at 1. unfold call at 1.
    fold input. rewrite E. reflexivity.
Qed.

(** An update whose body did not change, or changed to the empty
    document: the patch call comes first, and no overwrite call is
    made. *)
Lemma Update_no_overwrite (m : Machine S) (ops : list PatchOperation) :
  HasChange DeepEqual_string body (data m) = false
  \/ body (planned (data m)) = "" ->
  resourceAwsApiGatewayRestApiUpdateOperations escapeJsonPointer (data m)
  = Some ops ->
  exists rest,
    trace (snd (resourceAwsApiGatewayRestApiUpdate Format_RFC3339
                  flattenStringList escapeJsonPointer conn meta m))
    = trace m ++ CallUpdateRestApi
                   {| ura_PatchOperations := ops;
                      ura_RestApiId := aws.String (Id (data m)) |}
              :: rest
    /\ Forall is_lookup rest.
Proof.
  intros Hbody Hops.
  unfold resourceAwsApiGatewayRestApiUpdate.
  unfold bind at 1. unfold getData at 1.
  assert (Hskip :
    (if HasChange DeepEqual_string body (data m)
     then let (body_, ok) := GetOk_string body (data m) in
          if ok
          then (r <- call (CallPutRestApi
                             {| pra_Body := body_;
                                pra_Mode := aws.String PutModeOverwrite;
                                pra_RestApiId := aws.String (Id (data m)) |})
                          (PutRestApi conn
                             {| pra_Body := body_;
                                pra_Mode := aws.String PutModeOverwrite;
                                pra_RestApiId := aws.String (Id (data m)) |}) ;;
                match r with
                | Failure err =>
                  throw (errwrap_Wrapf
                           "Error updating API Gateway specification: " err)
                | Success _ => ret tt
                end)%go
          else ret tt
     else @ret S unit tt) = ret tt).
  { destruct Hbody as [->| Hb]; [reflexivity|].
    unfold GetOk_string, Get. rewrite Hb. simpl.
    now destruct (HasChange DeepEqual_string body (data m)). }
  rewrite Hskip. unfold bind at 1. unfold ret at 1.
  apply (Update_patch_call (data m) ops m eq_refl Hops).
Qed.

End Runs.

(** ** The properties of the specification *)

(** *** The minimum compression size and its sentinel *)

(** C1, as stated, fails for the update: when compression was enabled (5)
    and is disabled now (-1), the patch list does hold an operation for the
    minimum compression size, a replace with the empty string. *)
Lemma disabling_compression_is_patched :
  minimum_compression_size (planned Examples.compression_disabled) = (-1)%Z
  /\ resourceAwsApiGatewayRestApiUpdateOperations Examples.no_escape
       Examples.compression_disabled
     = Some [replace_op "/minimumCompressionSize" ""]
  /\ ~ (forall ops op,
          resourceAwsApiGatewayRestApiUpdateOperations Examples.no_escape
            Examples.compression_disabled = Some ops ->
          In op ops -> field_of op <> Some FMinimumCompressionSize).
Proof.
  split; [reflexivity|]. split; [reflexivity|].
  intros H.
  apply (H [replace_op "/minimumCompressionSize" ""]
           (replace_op "/minimumCompressionSize" ""));
    [reflexivity|now left|reflexivity].
Qed.

(** C1, amended: for every desired state whose minimum compression size is
    the sentinel -1, the request the create operation sends carries no
    minimum compression size; the patch list of the update holds no
    operation for the field when the field is unchanged, and when it
    changed exactly one, a replace of [/minimumCompressionSize] by the
    empty string. *)
Theorem compression_sentinel_create_and_update
    {time_Time S : Type} (Format_RFC3339 : time_Time -> string)
    (expandStringList flattenStringList : list string -> list string)
    (esc : string -> string)
    (conn : Service time_Time S) (meta : AWSClient) (m : Machine S) :
  minimum_compression_size (planned (data m)) = (-1)%Z ->
  (exists request rest,
     trace (snd (resourceAwsApiGatewayRestApiCreate Format_RFC3339
                   expandStringList flattenStringList conn meta m))
     = trace m ++ CallCreateRestApi request :: rest
     /\ cra_MinimumCompressionSize request = None)
  /\ (forall ops,
        resourceAwsApiGatewayRestApiUpdateOperations esc (data m) = Some ops ->
        filter (addresses FMinimumCompressionSize) ops
        = if changed FMinimumCompressionSize (data m)
          then [replace_op "/minimumCompressionSize" ""]
          else []).
Proof.
  intros Hz. split.
  - destruct (Create_first_call _ Format_RFC3339 expandStringList
                flattenStringList _ conn meta m) as [rest E].
    exists (createParams expandStringList (data m)), rest.
    split; [exact E|].
    unfold createParams, Get. now rewrite Hz.
  - intros ops Hops. rewrite UpdateOperations_groups in Hops.
    destruct (panics (data m)); [discriminate|].
    injection Hops as <-. rewrite filter_groups. simpl.
    unfold compression_value. now rewrite Hz.
Qed.

Lemma compression_sentinel_witness :
  (exists request rest,
     trace (snd (resourceAwsApiGatewayRestApiCreate Examples.format
                   Examples.same_list Examples.same_list
                   Examples.steady Examples.client
                   (Examples.machine Examples.compression_disabled)))
     = [] ++ CallCreateRestApi request :: rest
     /\ cra_MinimumCompressionSize request = None)
  /\ (forall ops,
        resourceAwsApiGatewayRestApiUpdateOperations Examples.no_escape
          Examples.compression_disabled = Some ops ->
        filter (addresses FMinimumCompressionSize) ops
        = [replace_op "/minimumCompressionSize" ""]).
Proof.
  apply (compression_sentinel_create_and_update Examples.format
           Examples.same_list Examples.same_list Examples.no_escape
           Examples.steady Examples.client
           (Examples.machine Examples.compression_disabled)).
  reflexivity.
Defined.

(** *** The description of a create request *)

(** C10: the create request carries a description exactly when the desired
    description is not empty; for the empty description the parameter is
    nil, not a pointer to an empty string. *)
Theorem create_description_only_when_nonempty
    {time_Time S : Type} (Format_RFC3339 : time_Time -> string)
    (expandStringList flattenStringList : list string -> list string)
    (conn : Service time_Time S) (meta : AWSClient) (m : Machine S) :
  exists request rest,
    trace (snd (resourceAwsApiGatewayRestApiCreate Format_RFC3339
                  expandStringList flattenStringList conn meta m))
    = trace m ++ CallCreateRestApi request :: rest
    /\ cra_Description request
       = (if (description (planned (data m)) =? "")%string then None
          else Some (description (planned (data m))))
    /\ (cra_Description request = None
        <-> description (planned (data m)) = "").
Proof.
  destruct (Create_first_call _ Format_RFC3339 expandStringList
              flattenStringList _ conn meta m) as [rest E].
  exists (createParams expandStringList (data m)), rest.
  split; [exact E|].
  unfold createParams, Get, aws.String. simpl.
  destruct (String.eqb_spec (description (planned (data m))) "") as [e|n];
    simpl; split; try reflexivity; split; intros H;
    try reflexivity; try assumption; try discriminate; contradiction.
Qed.

(** *** Delete *)

(** C2, as stated, fails: a delete call that is throttled once and would
    succeed from the second attempt on is not retried, although the
    timeout leaves room for a hundred calls; the delete ends with the
    throttling error after its single call. *)
Lemma throttled_delete_is_not_retried :
  resourceAwsApiGatewayRestApiDelete Examples.throttled_once Examples.hundred
    (Examples.machine (Examples.resource Examples.attributes0
                                         Examples.attributes0))
  = (Err Examples.throttled,
     {| data := Examples.resource Examples.attributes0 Examples.attributes0;
        remote := 1%nat;
        trace := [CallDeleteRestApi (Some "a1b2c3")] |})
  /\ fst (DeleteRestApi Examples.throttled_once (Some "a1b2c3") 1%nat)
     = Success tt.
Proof. split; reflexivity. Qed.

(** C2, amended: the delete runs under a retry helper with a timeout of
    ten minutes, but reports no failure as retryable. With room for one
    call at least it makes exactly one remote delete call and ends with
    it: in success when the call succeeds or answers not-found, and for
    every other failure, transient or not, in that failure at once. *)
Theorem delete_never_retries
    {time_Time S : Type} (conn : Service time_Time S)
    (rounds_within : Z -> nat) (m : Machine S) :
  rounds_within (10 * time_Minute)%Z <> O ->
  resourceAwsApiGatewayRestApiDelete conn rounds_within m
  = let (r, s') := DeleteRestApi conn (Some (Id (data m))) (remote m) in
    (match r with
     | Success _ => Ok tt
     | Failure err => if isNotFound err then Ok tt else Err err
     end,
     {| data := data m; remote := s';
        trace := trace m ++ [CallDeleteRestApi (Some (Id (data m)))] |}).
Proof. apply Delete_one_call. Qed.

Lemma delete_never_retries_witness :
  resourceAwsApiGatewayRestApiDelete Examples.throttled_once Examples.hundred
    (Examples.machine (Examples.resource Examples.attributes0
                                         Examples.attributes0))
  = (Err Examples.throttled,
     {| data := Examples.resource Examples.attributes0 Examples.attributes0;
        remote := 1%nat;
        trace := [] ++ [CallDeleteRestApi (Some "a1b2c3")] |}).
Proof.
  apply (delete_never_retries Examples.throttled_once Examples.hundred
           (Examples.machine (Examples.resource Examples.attributes0
                                                Examples.attributes0))).
  discriminate.
Defined.

(** C9: a delete whose remote call answers not-found ends in success; no
    error surfaces. *)
Theorem delete_not_found_is_success
    {time_Time S : Type} (conn : Service time_Time S)
    (rounds_within : Z -> nat) (m : Machine S) (err : error) (s' : S) :
  rounds_within (10 * time_Minute)%Z <> O ->
  DeleteRestApi conn (Some (Id (data m))) (remote m) = (Failure err, s') ->
  isNotFound err = true ->
  resourceAwsApiGatewayRestApiDelete conn rounds_within m
  = (Ok tt,
     {| data := data m; remote := s';
        trace := trace m ++ [CallDeleteRestApi (Some (Id (data m)))] |}).
Proof.
  intros Hrounds Hcall Hnf.
  rewrite (Delete_one_call _ _ conn rounds_within m Hrounds).
  unfold aws.String. rewrite Hcall, Hnf. reflexivity.
Qed.

Lemma delete_not_found_witness :
  resourceAwsApiGatewayRestApiDelete Examples.gone Examples.hundred
    (Examples.machine (Examples.resource Examples.attributes0
                                         Examples.attributes0))
  = (Ok tt,
     {| data := Examples.resource Examples.attributes0 Examples.attributes0;
        remote := 1%nat;
        trace := [] ++ [CallDeleteRestApi (Some "a1b2c3")] |}).
Proof.
  apply (delete_not_found_is_success Examples.gone Examples.hundred
           (Examples.machine (Examples.resource Examples.attributes0
                                                Examples.attributes0))
           Examples.notFound 1%nat).
  - discriminate.
  - reflexivity.
  - reflexivity.
Defined.

(** *** Read *)

(** C7: a read whose lookup fails with the not-found code clears the
    identifier of the local record and ends in success; every other
    failure of the lookup is the error of the read. *)
Theorem read_not_found_clears_identifier
    {time_Time S : Type} (Format_RFC3339 : time_Time -> string)
    (flattenStringList : list string -> list string)
    (conn : Service time_Time S) (meta : AWSClient) (m : Machine S)
    (err : error) (s' : S) :
  GetRestApi conn (Some (Id (data m))) (remote m) = (Failure err, s') ->
  (isNotFound err = true ->
   resourceAwsApiGatewayRestApiRead Format_RFC3339 flattenStringList
     conn meta m
   = (Ok tt,
      {| data := SetId "" (data m); remote := s';
         trace := trace m ++ [CallGetRestApi (Some (Id (data m)))] |}))
  /\ (isNotFound err = false ->
      resourceAwsApiGatewayRestApiRead Format_RFC3339 flattenStringList
        conn meta m
      = (Err err,
         {| data := data m; remote := s';
            trace := trace m ++ [CallGetRestApi (Some (Id (data m)))] |})).
Proof.
  intros H.
  rewrite (Read_lookup_failure _ Format_RFC3339 flattenStringList _ conn meta
             m err s' H).
  split; intros ->; reflexivity.
Qed.

Lemma read_not_found_witness :
  Id (data (snd (resourceAwsApiGatewayRestApiRead Examples.format
                   Examples.same_list Examples.gone Examples.client
                   (Examples.machine (Examples.resource Examples.attributes0
                                                        Examples.attributes0)))))
  = ""
  /\ fst (resourceAwsApiGatewayRestApiRead Examples.format
            Examples.same_list Examples.gone Examples.client
            (Examples.machine (Examples.resource Examples.attributes0
                                                 Examples.attributes0)))
     = Ok tt.
Proof.
  destruct (read_not_found_clears_identifier Examples.format
              Examples.same_list Examples.gone Examples.client
              (Examples.machine (Examples.resource Examples.attributes0
                                                   Examples.attributes0))
              Examples.notFound O eq_refl) as [H _].
  rewrite (H eq_refl). split; reflexivity.
Defined.

(** *** Update: the body *)

(** C3, as stated, fails: when the body changed from a document to the
    empty string, the update makes no overwrite call; its calls are the
    patch call and the lookup of the read-back. *)
Lemma removed_body_is_not_overwritten :
  HasChange DeepEqual_string body Examples.body_removed = true
  /\ fst (resourceAwsApiGatewayRestApiUpdate Examples.format
            Examples.same_list Examples.no_escape Examples.steady
            Examples.client (Examples.machine Examples.body_removed))
     = Ok tt
  /\ trace (snd (resourceAwsApiGatewayRestApiUpdate Examples.format
                   Examples.same_list Examples.no_escape Examples.steady
                   Examples.client (Examples.machine Examples.body_removed)))
     = [ CallUpdateRestApi {| ura_PatchOperations := [];
                              ura_RestApiId := Some "a1b2c3" |};
         CallGetRestApi (Some "a1b2c3") ].
Proof. repeat split; reflexivity. Qed.

(** C3, amended: in every update in which the body changed and the new
    body is not empty, an overwrite call with the new document is made
    first, before the patch call; its failure ends the update in a wrapped
    error of its own, with no patch call; after its success the patch call
    follows. When the body is unchanged or the new body is empty, the
    update makes no overwrite call. *)
Theorem changed_body_is_overwritten_first
    {time_Time S : Type} (Format_RFC3339 : time_Time -> string)
    (flattenStringList : list string -> list string)
    (escapeJsonPointer : string -> string)
    (conn : Service time_Time S) (meta : AWSClient) (m : Machine S)
    (ops : list PatchOperation) :
  resourceAwsApiGatewayRestApiUpdateOperations escapeJsonPointer (data m)
  = Some ops ->
  let update := resourceAwsApiGatewayRestApiUpdate Format_RFC3339
                  flattenStringList escapeJsonPointer conn meta m in
  let overwrite := {| pra_Body := body (planned (data m));
                      pra_Mode := Some "overwrite";
                      pra_RestApiId := Some (Id (data m)) |} in
  let patch := {| ura_PatchOperations := ops;
                  ura_RestApiId := Some (Id (data m)) |} in
  (HasChange DeepEqual_string body (data m) = true ->
   body (planned (data m)) <> "" ->
   match PutRestApi conn overwrite (remote m) with
   | (Failure err, s1) =>
     update
     = (Err (errwrap_Wrapped
               ("Error updating API Gateway specification: " ++ Error err)
               err),
        {| data := data m; remote := s1;
           trace := trace m ++ [CallPutRestApi overwrite] |})
   | (Success _, s1) =>
     exists rest,
       trace (snd update)
       = trace m ++ CallPutRestApi overwrite :: CallUpdateRestApi patch :: rest
       /\ Forall is_lookup rest
   end)
  /\ (HasChange DeepEqual_string body (data m) = false
      \/ body (planned (data m)) = "" ->
      exists rest,
        trace (snd update) = trace m ++ CallUpdateRestApi patch :: rest
        /\ Forall is_lookup rest).
Proof.
  intros Hops update overwrite patch. split.
  - intros Hchange Hbody.
    pose proof (Update_overwrite _ Format_RFC3339 flattenStringList
                  escapeJsonPointer _ conn meta m Hchange Hbody) as H.
    cbv zeta in H. unfold aws.String, PutModeOverwrite in H.
    subst update overwrite patch.
    destruct (PutRestApi conn _ (remote m)) as [[out|err] s1].
    + exact (H ops Hops).
    + exact H.
  - intros Hbody.
    exact (Update_no_overwrite _ Format_RFC3339 flattenStringList
             escapeJsonPointer _ conn meta m ops Hbody Hops).
Qed.

Lemma changed_body_witness :
  trace (snd (resourceAwsApiGatewayRestApiUpdate Examples.format
                Examples.same_list Examples.no_escape Examples.steady
                Examples.client (Examples.machine Examples.body_added)))
  = [ CallPutRestApi {| pra_Body := "{}"; pra_Mode := Some "overwrite";
                        pra_RestApiId := Some "a1b2c3" |};
      CallUpdateRestApi {| ura_PatchOperations := [];
                           ura_RestApiId := Some "a1b2c3" |};
      CallGetRestApi (Some "a1b2c3") ].
Proof.
  destruct (changed_body_is_overwritten_first Examples.format
              Examples.same_list Examples.no_escape Examples.steady
              Examples.client (Examples.machine Examples.body_added)
              [] eq_refl) as [H _].
  destruct (H eq_refl) as [rest [E _]]; [discriminate|].
  reflexivity.
Defined.

(** *** Update: the patch operations *)

(** C4: when the binary media types changed, the operations for the field
    are one remove per old entry, in the order of the old list, with the
    escaped entry in the path, followed by one add per new entry, in the
    order of the new list, whatever the two lists share; old [A, B] and
    new [B, C] give remove A, remove B, add B, add C. *)
Theorem binary_media_types_removed_then_added
    (escapeJsonPointer : string -> string) (d : ResourceData) :
  panics d = false ->
  changed FBinaryMediaTypes d = true ->
  exists ops,
    resourceAwsApiGatewayRestApiUpdateOperations escapeJsonPointer d = Some ops
    /\ filter (addresses FBinaryMediaTypes) ops
       = map (remove_op escapeJsonPointer) (binary_media_types (prior d))
         ++ map (add_op escapeJsonPointer) (binary_media_types (planned d))
    /\ (forall A B C,
          binary_media_types (prior d) = [A; B] ->
          binary_media_types (planned d) = [B; C] ->
          filter (addresses FBinaryMediaTypes) ops
          = [ remove_op escapeJsonPointer A; remove_op escapeJsonPointer B;
              add_op escapeJsonPointer B; add_op escapeJsonPointer C ]).
Proof.
  intros Hp Hc. exists (groups escapeJsonPointer d).
  rewrite UpdateOperations_groups, Hp. split; [reflexivity|].
  rewrite filter_groups. simpl in *.
  unfold spec_group_binary_media_types. rewrite Hc.
  split; [reflexivity|]. intros A B C -> ->. reflexivity.
Qed.

Lemma binary_media_types_witness :
  exists ops,
    resourceAwsApiGatewayRestApiUpdateOperations Examples.no_escape
      Examples.media_types_changed = Some ops
    /\ filter (addresses FBinaryMediaTypes) ops
       = [ remove_op Examples.no_escape "a"; remove_op Examples.no_escape "b";
           add_op Examples.no_escape "b"; add_op Examples.no_escape "c" ].
Proof.
  destruct (binary_media_types_removed_then_added Examples.no_escape
              Examples.media_types_changed eq_refl eq_refl)
    as [ops [E [_ H]]].
  exists ops. split; [exact E|]. exact (H "a" "b" "c" eq_refl eq_refl).
Defined.

(** C5: the patch operations are the groups of the changed fields, one
    group per field, in the fixed order name, description, policy, minimum
    compression size, binary media types, endpoint configuration type; an
    unchanged field contributes no operation. *)
Theorem operations_grouped_in_field_order
    (escapeJsonPointer : string -> string) (d : ResourceData) :
  schema_ok (planned d) = true ->
  exists ops,
    resourceAwsApiGatewayRestApiUpdateOperations escapeJsonPointer d = Some ops
    /\ ops = spec_UpdateOperations escapeJsonPointer d
    /\ StronglySorted le (map rank_of ops)
    /\ (forall op, In op ops ->
          exists f, field_of op = Some f /\ changed f d = true)
    /\ (forall f, changed f d = false -> filter (addresses f) ops = []).
Proof.
  intros Hok. exists (groups escapeJsonPointer d).
  rewrite UpdateOperations_groups, (schema_ok_no_panic d Hok).
  split; [reflexivity|]. split; [|split; [|split]].
  - apply groups_spec. unfold schema_ok in Hok.
    apply andb_true_iff in Hok as [_ Hok].
    apply andb_true_iff in Hok as [Hok _]. lia.
  - apply groups_sorted.
  - intros op Hop. unfold groups in Hop. rewrite !in_app_iff in Hop.
    assert (H : forall f, In op (group escapeJsonPointer f d) ->
                          exists f, field_of op = Some f /\ changed f d = true).
    { intros f Hf. exists f. split; [eapply group_addresses; eassumption|].
      destruct (changed f d) eqn:E; [reflexivity|].
      rewrite (group_unchanged escapeJsonPointer f d E) in Hf. destruct Hf. }
    destruct Hop as [Hop|[Hop|[Hop|[Hop|[Hop|Hop]]]]]; eapply H; eassumption.
  - intros f Hf. rewrite filter_groups. now apply group_unchanged.
Qed.

Lemma operations_order_witness :
  exists ops,
    resourceAwsApiGatewayRestApiUpdateOperations Examples.no_escape
      Examples.endpoint_regional = Some ops
    /\ ops = [ replace_op "/name" "api2";
               replace_op "/endpointConfiguration/types/0" "REGIONAL" ].
Proof.
  destruct (operations_grouped_in_field_order Examples.no_escape
              Examples.endpoint_regional eq_refl) as [ops [E [H _]]].
  exists ops. split; [exact E|]. rewrite H. reflexivity.
Defined.

(** C6: when the new endpoint configuration is empty, the translation
    returns with no operation for the endpoint configuration type; an
    operation for it, a replace of the type, appears only when the new
    configuration is not empty. *)
Theorem cleared_endpoint_is_skipped
    (escapeJsonPointer : string -> string) (d : ResourceData) :
  (endpoint_configuration (planned d) = [] ->
   exists ops,
     resourceAwsApiGatewayRestApiUpdateOperations escapeJsonPointer d
     = Some ops
     /\ filter (addresses FEndpointConfigurationType) ops = [])
  /\ (forall ops op,
        resourceAwsApiGatewayRestApiUpdateOperations escapeJsonPointer d
        = Some ops ->
        In op ops -> field_of op = Some FEndpointConfigurationType ->
        endpoint_configuration (planned d) <> []
        /\ Op op = Some "replace"
        /\ Path op = Some "/endpointConfiguration/types/0").
Proof.
  split.
  - intros Hnil. exists (groups escapeJsonPointer d).
    rewrite UpdateOperations_groups. unfold panics. rewrite Hnil.
    rewrite andb_false_r. split; [reflexivity|].
    rewrite filter_groups. simpl.
    unfold spec_group_endpoint_configuration. rewrite Hnil.
    now destruct (HasChange _ _ _).
  - intros ops op Hops Hin Hf. rewrite UpdateOperations_groups in Hops.
    destruct (panics d); [discriminate|]. injection Hops as <-.
    assert (Hg : In op (filter (addresses FEndpointConfigurationType)
                          (groups escapeJsonPointer d))).
    { apply filter_In. split; [exact Hin|]. unfold addresses.
      now rewrite Hf. }
    rewrite filter_groups in Hg. simpl in Hg.
    unfold spec_group_endpoint_configuration in Hg.
    destruct (HasChange _ _ _); [|destruct Hg].
    destruct (endpoint_configuration (planned d)); [destruct Hg|].
    destruct Hg as [<-|[]]. repeat split. discriminate.
Qed.

Lemma cleared_endpoint_witness :
  exists ops,
    resourceAwsApiGatewayRestApiUpdateOperations Examples.no_escape
      Examples.endpoint_cleared = Some ops
    /\ filter (addresses FEndpointConfigurationType) ops = [].
Proof.
  apply (cleared_endpoint_is_skipped Examples.no_escape
           Examples.endpoint_cleared).
  reflexivity.
Defined.

(** ** The unquoting of the policy *)

Module Unquoting.
Local Open Scope Z_scope.

Lemma byte_val_range (c : ascii) : 0 <= byte_val c < 256.
Proof.
  unfold byte_val. pose proof (N_ascii_bounded c) as H.
  split; [apply N2Z.is_nonneg|]. change 256 with (Z.of_N 256).
  now apply N2Z.inj_lt.
Qed.

Lemma byte_byte_val (c : ascii) : byte (byte_val c) = c.
Proof.
  unfold byte. rewrite Z.mod_small by apply byte_val_range.
  unfold byte_val. rewrite N2Z.id. apply ascii_N_embedding.
Qed.

Lemma byte_val_byte (z : Z) : byte_val (byte z) = z mod 256.
Proof.
  unfold byte, byte_val.
  assert (H : 0 <= z mod 256 < 256) by (apply Z.mod_pos_bound; lia).
  rewrite N_ascii_embedding.
  - apply Z2N.id; lia.
  - change 256%N with (Z.to_N 256). apply Z2N.inj_lt; lia.
Qed.

(** Bits that do not overlap add up. *)
Lemma lor_add (k x y : Z) :
  0 <= k -> 0 <= y < 2 ^ k -> x mod 2 ^ k = 0 -> Z.lor x y = x + y.
Proof.
  intros Hk Hy Hx.
  assert (Hland : Z.land x y = 0).
  { apply Z.bits_inj'. intros n Hn. rewrite Z.land_spec, Z.bits_0.
    destruct (Z.lt_ge_cases n k) as [Hlt|Hge].
    - assert (Hbit : Z.testbit x n = false).
      { rewrite <- (Z.mod_pow2_bits_low x k n) by lia.
        rewrite Hx. apply Z.bits_0. }
      now rewrite Hbit.
    - assert (Hbit : Z.testbit y n = false).
      { rewrite <- (Z.mod_small y (2 ^ k)) by lia.
        apply Z.mod_pow2_bits_high. lia. }
      rewrite Hbit. apply andb_false_r. }
  rewrite <- Z.lxor_lor by exact Hland.
  symmetry. now apply Z.add_nocarry_lxor.
Qed.

Lemma land_mask (x k : Z) : 0 <= k -> Z.land x (2 ^ k - 1) = x mod 2 ^ k.
Proof.
  intros Hk. rewrite <- Z.land_ones by exact Hk.
  now rewrite Z.ones_equiv, Z.sub_1_r.
Qed.


Ltac arith :=
  cbv beta delta [continuation second_lo second_hi rune2 rune3 rune4
                  utf8.locb utf8.hicb] in *;
  repeat match goal with
  | H : context [?x =? ?y] |- _ => destruct (Z.eqb_spec x y)
  | |- context [?x =? ?y] => destruct (Z.eqb_spec x y)
  end;
  Z.div_mod_to_equations; lia.

(** *** The table of first bytes *)

Lemma first_lead (b : Z) :
  0xC2 <= b <= 0xF4 ->
  (utf8.first b >=? utf8.as_) = false
  /\ (utf8.first b =? utf8.xx) = false
  /\ Z.land (utf8.first b) 7
     = (if b <? 0xE0 then 2 else if b <? 0xF0 then 3 else 4)
  /\ utf8.lo (utf8.acceptRanges (Z.shiftr (utf8.first b) 4)) = second_lo b
  /\ utf8.hi (utf8.acceptRanges (Z.shiftr (utf8.first b) 4)) = second_hi b.
Proof.
  intros H. unfold utf8.first, second_lo, second_hi.
  repeat match goal with
  | |- context [b <? ?y] => destruct (Z.ltb_spec b y); try lia
  | |- context [b =? ?y] => destruct (Z.eqb_spec b y); try lia
  end; repeat split; reflexivity.
Qed.

Lemma first_ascii (b : Z) : b < 0x80 -> utf8.first b = utf8.as_.
Proof.
  intros H. unfold utf8.first. destruct (Z.ltb_spec b 0x80); [reflexivity|lia].
Qed.

(** Outside the range of the leading bytes the table marks the byte as
    invalid. *)
Lemma first_invalid (b : Z) :
  0x80 <= b -> ~ 0xC2 <= b <= 0xF4 -> utf8.first b = utf8.xx.
Proof.
  intros H N. unfold utf8.first.
  repeat match goal with
  | |- context [?x <? ?y] => destruct (Z.ltb_spec x y); try lia
  | |- context [?x =? ?y] => destruct (Z.eqb_spec x y); try lia
  end; reflexivity.
Qed.

Lemma second_continuation (b0 b1 : Z) :
  second_lo b0 <= b1 <= second_hi b0 -> continuation b1.
Proof. intros H. arith. Qed.

(** *** Packing and unpacking the bits of a rune *)

Lemma land_continuation (b : Z) :
  continuation b -> Z.land b utf8.maskx = b - 0x80.
Proof.
  intros H. change utf8.maskx with (2 ^ 6 - 1).
  rewrite land_mask by lia. arith.
Qed.

Lemma lor_continuation (y : Z) :
  0 <= y < 64 -> Z.lor utf8.tx y = 0x80 + y.
Proof. intros H. apply (lor_add 6); [lia|lia|reflexivity]. Qed.

Lemma decoded2 (b0 b1 : Z) :
  encoding2 b0 b1 ->
  Z.lor (Z.shiftl (Z.land b0 utf8.mask2) 6) (Z.land b1 utf8.maskx)
  = rune2 b0 b1.
Proof.
  intros [H0 H1]. rewrite (land_continuation _ H1).
  change utf8.mask2 with (2 ^ 5 - 1). rewrite land_mask by lia.
  rewrite Z.shiftl_mul_pow2 by lia.
  rewrite (lor_add 6) by arith. arith.
Qed.

Lemma decoded3 (b0 b1 b2 : Z) :
  encoding3 b0 b1 b2 ->
  Z.lor (Z.lor (Z.shiftl (Z.land b0 utf8.mask3) 12)
               (Z.shiftl (Z.land b1 utf8.maskx) 6))
        (Z.land b2 utf8.maskx)
  = rune3 b0 b1 b2.
Proof.
  intros [H0 [H1 H2]]. pose proof (second_continuation _ _ H1) as C1.
  rewrite (land_continuation _ C1), (land_continuation _ H2).
  change utf8.mask3 with (2 ^ 4 - 1). rewrite land_mask by lia.
  rewrite !Z.shiftl_mul_pow2 by lia.
  rewrite (lor_add 12 (_ * 2 ^ 12) (_ * 2 ^ 6)) by arith.
  rewrite (lor_add 6) by arith. arith.
Qed.

Lemma decoded4 (b0 b1 b2 b3 : Z) :
  encoding4 b0 b1 b2 b3 ->
  Z.lor (Z.lor (Z.lor (Z.shiftl (Z.land b0 utf8.mask4) 18)
                      (Z.shiftl (Z.land b1 utf8.maskx) 12))
               (Z.shiftl (Z.land b2 utf8.maskx) 6))
        (Z.land b3 utf8.maskx)
  = rune4 b0 b1 b2 b3.
Proof.
  intros [H0 [H1 [H2 H3]]]. pose proof (second_continuation _ _ H1) as C1.
  rewrite (land_continuation _ C1), (land_continuation _ H2),
    (land_continuation _ H3).
  change utf8.mask4 with (2 ^ 3 - 1). rewrite land_mask by lia.
  rewrite !Z.shiftl_mul_pow2 by lia.
  rewrite (lor_add 18 (_ * 2 ^ 18) (_ * 2 ^ 12)) by arith.
  rewrite (lor_add 12 _ (_ * 2 ^ 6)) by arith.
  rewrite (lor_add 6) by arith. arith.
Qed.

(** *** Encoding a decoded rune gives the bytes back *)

Lemma encoded2 (b0 b1 : Z) :
  encoding2 b0 b1 ->
  utf8.EncodeRune (rune2 b0 b1)
  = String (byte b0) (String (byte b1) EmptyString).
Proof.
  intros [H0 H1]. unfold utf8.EncodeRune.
  assert (Hr : 0x80 <= rune2 b0 b1 <= 0x7FF) by arith.
  rewrite Z.mod_small by lia.
  destruct (Z.leb_spec (rune2 b0 b1) utf8.rune1Max) as [H|_];
    [unfold utf8.rune1Max in H; lia|].
  destruct (Z.leb_spec (rune2 b0 b1) utf8.rune2Max) as [_|H];
    [|unfold utf8.rune2Max in H; lia].
  rewrite !byte_val_byte, Z.shiftr_div_pow2 by lia.
  change utf8.maskx with (2 ^ 6 - 1). rewrite land_mask by lia.
  f_equal; [|f_equal]; f_equal.
  - change utf8.t2 with 192. rewrite (lor_add 6) by arith. arith.
  - rewrite lor_continuation by arith. arith.
Qed.

Lemma encoded3 (b0 b1 b2 : Z) :
  encoding3 b0 b1 b2 ->
  utf8.EncodeRune (rune3 b0 b1 b2)
  = String (byte b0) (String (byte b1) (String (byte b2) EmptyString)).
Proof.
  intros [H0 [H1 H2]]. unfold utf8.EncodeRune.
  assert (Hr : 0x800 <= rune3 b0 b1 b2 <= 0xFFFF
               /\ ~ 0xD800 <= rune3 b0 b1 b2 <= 0xDFFF) by (split; arith).
  destruct Hr as [Hr Hs].
  rewrite Z.mod_small by lia.
  destruct (Z.leb_spec (rune3 b0 b1 b2) utf8.rune1Max) as [H|_];
    [unfold utf8.rune1Max in H; lia|].
  destruct (Z.leb_spec (rune3 b0 b1 b2) utf8.rune2Max) as [H|_];
    [unfold utf8.rune2Max in H; lia|].
  destruct (Z.gtb_spec (rune3 b0 b1 b2) utf8.MaxRune) as [H|_];
    [unfold utf8.MaxRune in H; lia|].
  assert (Hsur : (utf8.surrogateMin <=? rune3 b0 b1 b2)
                 && (rune3 b0 b1 b2 <=? utf8.surrogateMax) = false).
  { unfold utf8.surrogateMin, utf8.surrogateMax.
    destruct (Z.leb_spec 0xD800 (rune3 b0 b1 b2)); [|reflexivity].
    destruct (Z.leb_spec (rune3 b0 b1 b2) 0xDFFF); [lia|reflexivity]. }
  rewrite Hsur. simpl orb. cbv iota.
  destruct (Z.leb_spec (rune3 b0 b1 b2) utf8.rune3Max) as [_|H];
    [|unfold utf8.rune3Max in H; lia].
  unfold utf8.encode3.
  rewrite !byte_val_byte, !Z.shiftr_div_pow2 by lia.
  change utf8.maskx with (2 ^ 6 - 1). rewrite !land_mask by lia.
  f_equal; [|f_equal; [|f_equal]]; f_equal.
  - change utf8.t3 with 224. rewrite (lor_add 4) by arith. arith.
  - rewrite lor_continuation by arith. arith.
  - rewrite lor_continuation by arith. arith.
Qed.

Lemma encoded4 (b0 b1 b2 b3 : Z) :
  encoding4 b0 b1 b2 b3 ->
  utf8.EncodeRune (rune4 b0 b1 b2 b3)
  = String (byte b0) (String (byte b1) (String (byte b2)
      (String (byte b3) EmptyString))).
Proof.
  intros [H0 [H1 [H2 H3]]]. unfold utf8.EncodeRune.
  assert (Hr : 0x10000 <= rune4 b0 b1 b2 b3 <= 0x10FFFF) by arith.
  rewrite Z.mod_small by lia.
  destruct (Z.leb_spec (rune4 b0 b1 b2 b3) utf8.rune1Max) as [H|_];
    [unfold utf8.rune1Max in H; lia|].
  destruct (Z.leb_spec (rune4 b0 b1 b2 b3) utf8.rune2Max) as [H|_];
    [unfold utf8.rune2Max in H; lia|].
  destruct (Z.gtb_spec (rune4 b0 b1 b2 b3) utf8.MaxRune) as [H|_];
    [unfold utf8.MaxRune in H; lia|].
  assert (Hsur : (utf8.surrogateMin <=? rune4 b0 b1 b2 b3)
                 && (rune4 b0 b1 b2 b3 <=? utf8.surrogateMax) = false).
  { unfold utf8.surrogateMin, utf8.surrogateMax.
    destruct (Z.leb_spec 0xD800 (rune4 b0 b1 b2 b3)); [|reflexivity].
    destruct (Z.leb_spec (rune4 b0 b1 b2 b3) 0xDFFF); [lia|reflexivity]. }
  rewrite Hsur. simpl orb. cbv iota.
  destruct (Z.leb_spec (rune4 b0 b1 b2 b3) utf8.rune3Max) as [H|_];
    [unfold utf8.rune3Max in H; lia|].
  rewrite !byte_val_byte, !Z.shiftr_div_pow2 by lia.
  change utf8.maskx with (2 ^ 6 - 1). rewrite !land_mask by lia.
  f_equal; [|f_equal; [|f_equal; [|f_equal]]]; f_equal.
  - change utf8.t4 with 240. rewrite (lor_add 4) by arith. arith.
  - rewrite lor_continuation by arith. arith.
  - rewrite lor_continuation by arith. arith.
  - rewrite lor_continuation by arith. arith.
Qed.

(** *** Decoding *)

(** The tests of [DecodeRuneInString], from the first on: an exit of an
    invalid encoding is not taken. *)
Ltac head_test :=
  match goal with
  | |- (if (?x <? ?y) || (?u <? ?v) then _ else _) = _ =>
    destruct (Z.ltb_spec x y); [exfalso; arith|];
    destruct (Z.ltb_spec u v); [exfalso; arith|];
    change (false || false) with false; cbv iota
  | |- (if ?x <? ?y then _ else _) = _ =>
    destruct (Z.ltb_spec x y); [exfalso; arith|]
  | |- (if ?x =? ?y then _ else _) = _ =>
    destruct (Z.eqb_spec x y); try (exfalso; lia)
  end.

Ltac size_of_lead H :=
  match type of H with
  | _ = (if ?x <? ?y then _ else _) =>
    destruct (Z.ltb_spec x y) in H; try (exfalso; lia)
  end.

Lemma decode2 (c0 c1 : ascii) (t : string) :
  encoding2 (byte_val c0) (byte_val c1) ->
  utf8.DecodeRuneInString (String c0 (String c1 t))
  = (rune2 (byte_val c0) (byte_val c1), 2%nat).
Proof.
  intros H. pose proof H as [H0 H1].
  destruct (first_lead (byte_val c0)) as [Ha [_ [Hsz [Hlo Hhi]]]]; [lia|].
  unfold utf8.DecodeRuneInString.
  change (index (String c0 (String c1 t)) 0) with (byte_val c0).
  change (index (String c0 (String c1 t)) 1) with (byte_val c1).
  change (String.length (String c0 (String c1 t)))
    with (S (S (String.length t))).
  change ((S (S (String.length t)) <? 1)%nat) with false.
  size_of_lead Hsz.
  rewrite Ha, Hsz, Hlo, Hhi. cbv iota.
  repeat head_test. now rewrite (decoded2 _ _ H).
Qed.

Lemma decode3 (c0 c1 c2 : ascii) (t : string) :
  encoding3 (byte_val c0) (byte_val c1) (byte_val c2) ->
  utf8.DecodeRuneInString (String c0 (String c1 (String c2 t)))
  = (rune3 (byte_val c0) (byte_val c1) (byte_val c2), 3%nat).
Proof.
  intros H. pose proof H as [H0 [H1 H2]].
  destruct (first_lead (byte_val c0)) as [Ha [_ [Hsz [Hlo Hhi]]]]; [lia|].
  unfold utf8.DecodeRuneInString.
  change (index (String c0 (String c1 (String c2 t))) 0) with (byte_val c0).
  change (index (String c0 (String c1 (String c2 t))) 1) with (byte_val c1).
  change (index (String c0 (String c1 (String c2 t))) 2) with (byte_val c2).
  change (String.length (String c0 (String c1 (String c2 t))))
    with (S (S (S (String.length t)))).
  change ((S (S (S (String.length t))) <? 1)%nat) with false.
  do 2 size_of_lead Hsz.
  rewrite Ha, Hsz, Hlo, Hhi. cbv iota.
  repeat head_test. now rewrite (decoded3 _ _ _ H).
Qed.

Lemma decode4 (c0 c1 c2 c3 : ascii) (t : string) :
  encoding4 (byte_val c0) (byte_val c1) (byte_val c2) (byte_val c3) ->
  utf8.DecodeRuneInString (String c0 (String c1 (String c2 (String c3 t))))
  = (rune4 (byte_val c0) (byte_val c1) (byte_val c2) (byte_val c3), 4%nat).
Proof.
  intros H. pose proof H as [H0 [H1 [H2 H3]]].
  destruct (first_lead (byte_val c0)) as [Ha [_ [Hsz [Hlo Hhi]]]]; [lia|].
  unfold utf8.DecodeRuneInString.
  change (index (String c0 (String c1 (String c2 (String c3 t)))) 0)
    with (byte_val c0).
  change (index (String c0 (String c1 (String c2 (String c3 t)))) 1)
    with (byte_val c1).
  change (index (String c0 (String c1 (String c2 (String c3 t)))) 2)
    with (byte_val c2).
  change (index (String c0 (String c1 (String c2 (String c3 t)))) 3)
    with (byte_val c3).
  change (String.length (String c0 (String c1 (String c2 (String c3 t)))))
    with (S (S (S (S (String.length t))))).
  change ((S (S (S (S (String.length t)))) <? 1)%nat) with false.
  do 2 size_of_lead Hsz.
  rewrite Ha, Hsz, Hlo, Hhi. cbv iota.
  repeat head_test. now rewrite (decoded4 _ _ _ _ H).
Qed.

(** *** Valid strings, rune by rune *)

Ltac hyp_test H :=
  match type of H with
  | (if (?x <? ?y) || (?u <? ?v) then false else _) = true =>
    destruct (Z.ltb_spec x y); [discriminate H|];
    destruct (Z.ltb_spec u v); [discriminate H|];
    change (false || false) with false in H; cbv iota in H
  | (if ?x <? ?y then false else _) = true =>
    destruct (Z.ltb_spec x y); [discriminate H|]
  end.

Lemma ValidString_inv (c0 : ascii) (t0 : string) :
  utf8.ValidString (String c0 t0) = true ->
  (byte_val c0 < 0x80 /\ utf8.ValidString t0 = true)
  \/ (exists c1 t1, t0 = String c1 t1
        /\ encoding2 (byte_val c0) (byte_val c1)
        /\ utf8.ValidString t1 = true)
  \/ (exists c1 c2 t2, t0 = String c1 (String c2 t2)
        /\ encoding3 (byte_val c0) (byte_val c1) (byte_val c2)
        /\ utf8.ValidString t2 = true)
  \/ (exists c1 c2 c3 t3, t0 = String c1 (String c2 (String c3 t3))
        /\ encoding4 (byte_val c0) (byte_val c1) (byte_val c2) (byte_val c3)
        /\ utf8.ValidString t3 = true).
Proof.
  intros H. cbn [utf8.ValidString] in H.
  destruct (Z.ltb_spec (byte_val c0) utf8.RuneSelf) as [Hlt|Hge].
  { left. split; [exact Hlt|exact H]. }
  right. unfold utf8.RuneSelf in Hge.
  assert (Hlead : 0xC2 <= byte_val c0 <= 0xF4).
  { destruct (Z.le_gt_cases 0xC2 (byte_val c0)) as [Hl|Hl];
      [destruct (Z.le_gt_cases (byte_val c0) 0xF4) as [Hu|Hu];
         [lia|] |];
      rewrite first_invalid in H by lia; discriminate H. }
  destruct (first_lead _ Hlead) as [_ [Hx [Hsz [Hlo Hhi]]]].
  rewrite Hx, Hlo, Hhi in H. cbv iota in H.
  destruct (Z.ltb_spec (byte_val c0) 224) as [L2|L2];
    [|destruct (Z.ltb_spec (byte_val c0) 240) as [L3|L3]];
    rewrite Hsz in H.
  - left. destruct t0 as [|c1 t1]; [cbn in H; discriminate H|].
    hyp_test H. cbv iota in H. hyp_test H.
    change (2 =? 2) with true in H. cbv iota in H.
    exists c1, t1. repeat split; try assumption; arith.
  - right; left. destruct t0 as [|c1 [|c2 t2]]; try (cbn in H; discriminate H).
    hyp_test H. cbv iota in H. hyp_test H.
    change (3 =? 2) with false in H. cbv iota in H. hyp_test H.
    change (3 =? 3) with true in H. cbv iota in H.
    exists c1, c2, t2. repeat split; try assumption; arith.
  - right; right. destruct t0 as [|c1 [|c2 [|c3 t3]]];
      try (cbn in H; discriminate H).
    hyp_test H. cbv iota in H. hyp_test H.
    change (4 =? 2) with false in H. cbv iota in H. hyp_test H.
    change (4 =? 3) with false in H. cbv iota in H. hyp_test H.
    exists c1, c2, c3, t3. repeat split; try assumption; arith.
Qed.

(** *** Byte by byte *)

Ltac each_byte c := destruct c as [[] [] [] [] [] [] [] []].

Lemma escapeByte_high (c : ascii) :
  0x80 <= byte_val c -> escapeByte c = String c EmptyString.
Proof.
  intros H. each_byte c;
    try reflexivity; exfalso; vm_compute in H; congruence.
Qed.

Lemma not_special_high (c : ascii) :
  0x80 <= byte_val c ->
  Ascii.eqb c dquote = false /\ Ascii.eqb c backslash = false
  /\ Ascii.eqb c newline = false.
Proof.
  intros H. each_byte c;
    try (repeat split; reflexivity); exfalso; vm_compute in H; congruence.
Qed.

Lemma escapeByte_no_newline (c : ascii) :
  strconv.contains (escapeByte c) newline = false.
Proof. each_byte c; reflexivity. Qed.

Lemma escapeByte_raw (c : ascii) :
  strconv.contains (escapeByte c) backslash = false ->
  escapeByte c = String c EmptyString.
Proof.
  intros H. each_byte c; try reflexivity; vm_compute in H; discriminate H.
Qed.

(** One round of the loop on an escaped byte below [0x80]: the byte is
    appended to the buffer, and the loop goes on after its escape. *)
Lemma round_ascii (c : ascii) (rest buf : string) (n : nat) :
  byte_val c < 0x80 ->
  strconv.unquote_loop (S n) (escapeByte c ++ rest) dquote buf
  = strconv.unquote_loop n rest dquote (buf ++ String c EmptyString).
Proof.
  intros H. each_byte c;
    try reflexivity; exfalso; vm_compute in H; congruence.
Qed.

(** One round of the loop on a valid encoding of several bytes: the
    rune is decoded, encoded again into the buffer, and the bytes are the
    same. *)
Lemma round_encoded (c0 : ascii) (s rest w buf : string) (r : Z) (size n : nat) :
  0x80 <= byte_val c0 ->
  utf8.DecodeRuneInString (String c0 s) = (r, size) ->
  drop size (String c0 s) = rest ->
  0x80 <= r ->
  utf8.EncodeRune r = w ->
  strconv.unquote_loop (S n) (String c0 s) dquote buf
  = strconv.unquote_loop n rest dquote (buf ++ w).
Proof.
  intros Hc Hdec Hdrop Hr Henc.
  destruct (not_special_high c0 Hc) as [Hq _].
  cbn [strconv.unquote_loop]. unfold strconv.UnquoteChar.
  rewrite Hq. cbn [andb].
  rewrite Z.geb_leb. unfold utf8.RuneSelf.
  destruct (Z.leb_spec 0x80 (byte_val c0)); [|lia].
  rewrite Hdec, Hdrop.
  destruct (Z.ltb_spec r 0x80); [lia|].
  cbn [orb negb]. rewrite Henc.
  reflexivity.
Qed.

Lemma encoding2_rune (b0 b1 : Z) : encoding2 b0 b1 -> 0x80 <= rune2 b0 b1.
Proof. intros [H0 H1]. arith. Qed.

Lemma encoding3_rune (b0 b1 b2 : Z) :
  encoding3 b0 b1 b2 -> 0x80 <= rune3 b0 b1 b2.
Proof. intros [H0 [H1 H2]]. arith. Qed.

Lemma encoding4_rune (b0 b1 b2 b3 : Z) :
  encoding4 b0 b1 b2 b3 -> 0x80 <= rune4 b0 b1 b2 b3.
Proof. intros [H0 [H1 [H2 H3]]]. arith. Qed.

Lemma string_app_assoc (a b c : string) :
  ((a ++ b) ++ c = a ++ (b ++ c))%string.
Proof. induction a as [|x a IH]; simpl; [reflexivity|now rewrite IH]. Qed.

Lemma string_app_nil_r (a : string) : (a ++ "")%string = a.
Proof. induction a as [|x a IH]; simpl; [reflexivity|now rewrite IH]. Qed.

Lemma length_app (a b : string) :
  String.length (a ++ b) = (String.length a + String.length b)%nat.
Proof. induction a as [|x a IH]; simpl; [reflexivity|now rewrite IH]. Qed.

Lemma escapeByte_length (c : ascii) : (1 <= String.length (escapeByte c))%nat.
Proof. each_byte c; simpl; lia. Qed.

(** *** The loop on an escaped valid string *)

Lemma unquote_loop_escaped (k : nat) :
  forall (s buf : string) (rounds : nat),
    (String.length s <= k)%nat ->
    utf8.ValidString s = true ->
    (String.length (escapeOneLevel s) <= rounds)%nat ->
    strconv.unquote_loop rounds (escapeOneLevel s) dquote buf
    = Success (buf ++ s)%string.
Proof.
  induction k as [|k IH]; intros s buf rounds Hk Hv Hr.
  - destruct s; [|simpl in Hk; lia].
    simpl. rewrite string_app_nil_r. now destruct rounds.
  - destruct s as [|c0 t0].
    { simpl. rewrite string_app_nil_r. now destruct rounds. }
    destruct (ValidString_inv c0 t0 Hv)
      as [[Hc Ht]|[(c1 & t1 & -> & He & Ht)|[(c1 & c2 & t2 & -> & He & Ht)
          |(c1 & c2 & c3 & t3 & -> & He & Ht)]]].
    + cbn [escapeOneLevel] in *. rewrite length_app in Hr.
      pose proof (escapeByte_length c0).
      destruct rounds as [|n]; [lia|].
      rewrite (round_ascii _ _ _ _ Hc).
      rewrite IH; [|simpl in Hk; lia|exact Ht|lia].
      now rewrite string_app_assoc.
    + pose proof He as [H0 H1]. unfold continuation in H1.
      cbn [escapeOneLevel] in *.
      rewrite !escapeByte_high in * by lia.
      cbn [append] in *. cbn [String.length] in Hr, Hk.
      destruct rounds as [|n]; [lia|].
      rewrite (round_encoded c0 _ (escapeOneLevel t1)
                 (String c0 (String c1 "")) buf
                 (rune2 (byte_val c0) (byte_val c1)) 2 n).
      * rewrite IH; [|lia|exact Ht|lia]. now rewrite string_app_assoc.
      * lia.
      * apply decode2, He.
      * reflexivity.
      * apply encoding2_rune, He.
      * rewrite (encoded2 _ _ He). now rewrite !byte_byte_val.
    + pose proof He as [H0 [H1 H2]].
      pose proof (second_continuation _ _ H1) as C1.
      unfold continuation in H2, C1.
      cbn [escapeOneLevel] in *.
      rewrite !escapeByte_high in * by lia.
      cbn [append] in *. cbn [String.length] in Hr, Hk.
      destruct rounds as [|n]; [lia|].
      rewrite (round_encoded c0 _ (escapeOneLevel t2)
                 (String c0 (String c1 (String c2 ""))) buf
                 (rune3 (byte_val c0) (byte_val c1) (byte_val c2)) 3 n).
      * rewrite IH; [|lia|exact Ht|lia]. now rewrite string_app_assoc.
      * lia.
      * apply decode3, He.
      * reflexivity.
      * apply encoding3_rune, He.
      * rewrite (encoded3 _ _ _ He). now rewrite !byte_byte_val.
    + pose proof He as [H0 [H1 [H2 H3]]].
      pose proof (second_continuation _ _ H1) as C1.
      unfold continuation in H2, H3, C1.
      cbn [escapeOneLevel] in *.
      rewrite !escapeByte_high in * by lia.
      cbn [append] in *. cbn [String.length] in Hr, Hk.
      destruct rounds as [|n]; [lia|].
      rewrite (round_encoded c0 _ (escapeOneLevel t3)
                 (String c0 (String c1 (String c2 (String c3 "")))) buf
                 (rune4 (byte_val c0) (byte_val c1) (byte_val c2)
                        (byte_val c3)) 4 n).
      * rewrite IH; [|lia|exact Ht|lia]. now rewrite string_app_assoc.
      * lia.
      * apply decode4, He.
      * reflexivity.
      * apply encoding4_rune, He.
      * rewrite (encoded4 _ _ _ _ He). now rewrite !byte_byte_val.
Qed.

(** *** Between the quotation marks *)

Lemma get_last (e : string) (c : ascii) :
  String.get (String.length e) (e ++ String c "") = Some c.
Proof. induction e as [|x e IH]; simpl; [reflexivity|exact IH]. Qed.

Lemma substring_prefix (e rest : string) :
  String.substring 0 (String.length e) (e ++ rest) = e.
Proof.
  induction e as [|x e IH]; simpl; [now destruct rest|now rewrite IH].
Qed.

(** What [strconv.Unquote] does with a text put between two quotation
    marks. *)
Lemma Unquote_quoted (e : string) :
  strconv.Unquote (quoted e)
  = if strconv.contains e newline then Failure strconv.ErrSyntax
    else if negb (strconv.contains e backslash)
            && negb (strconv.contains e dquote)
            && utf8.ValidString e
    then Success e
    else strconv.unquote_loop (String.length e) e dquote "".
Proof.
  unfold strconv.Unquote, quoted.
  change (String.length (String dquote e ++ String dquote ""))
    with (S (String.length (e ++ String dquote ""))).
  rewrite length_app. cbn [String.length].
  replace (S (String.length e + 1) <? 2)%nat with false
    by (symmetry; apply Nat.ltb_ge; lia).
  change (index (String dquote e ++ String dquote "") 0)
    with (byte_val dquote).
  rewrite byte_byte_val.
  replace (S (String.length e + 1) - 1)%nat with (S (String.length e)) by lia.
  replace (S (String.length e + 1) - 2)%nat with (String.length e) by lia.
  unfold index. cbn [append String.get]. rewrite get_last.
  rewrite byte_byte_val.
  change (Ascii.eqb dquote dquote) with true.
  change (Ascii.eqb dquote backquote) with false.
  change (Ascii.eqb dquote squote) with false.
  cbn [negb andb].
  cbn [String.substring]. rewrite substring_prefix.
  reflexivity.
Qed.

Lemma contains_app (a b : string) (c : ascii) :
  strconv.contains (a ++ b) c = strconv.contains a c || strconv.contains b c.
Proof.
  induction a as [|x a IH]; simpl; [reflexivity|].
  now rewrite IH, orb_assoc.
Qed.

Lemma escaped_no_newline (s : string) :
  strconv.contains (escapeOneLevel s) newline = false.
Proof.
  induction s as [|c s IH]; simpl; [reflexivity|].
  now rewrite contains_app, escapeByte_no_newline, IH.
Qed.

Lemma escaped_raw (s : string) :
  strconv.contains (escapeOneLevel s) backslash = false ->
  escapeOneLevel s = s.
Proof.
  induction s as [|c s IH]; simpl; [reflexivity|].
  rewrite contains_app. intros H. apply orb_false_iff in H as [Hc Hs].
  now rewrite (escapeByte_raw c Hc), (IH Hs).
Qed.

(** Unquoting the escaped text of a valid string gives the string back. *)
Lemma Unquote_escaped (s : string) :
  utf8.ValidString s = true ->
  strconv.Unquote (quoted (escapeOneLevel s)) = Success s.
Proof.
  intros Hv. rewrite Unquote_quoted, escaped_no_newline.
  destruct (strconv.contains (escapeOneLevel s) backslash) eqn:Hb.
  - cbn [negb andb].
    now rewrite (unquote_loop_escaped (String.length s)).
  - rewrite (escaped_raw s Hb), Hv.
    destruct (strconv.contains s dquote); cbn [negb andb]; [|reflexivity].
    rewrite <- (escaped_raw s Hb) at 2.
    rewrite <- (escaped_raw s Hb) at 1.
    now rewrite (unquote_loop_escaped (String.length s)).
Qed.

End Unquoting.

(** *** The policy of a read *)

(** C8: when the answer of the service holds the submitted policy, a valid
    UTF-8 text as every JSON text is, with one added level of escaping,
    the unquoting of the read gives the submitted text back, byte for
    byte, and the read stores it; and when the unquoting fails, the read
    ends in an error of its own kind, labelled as an unescaping error. *)
Theorem policy_round_trips
    {time_Time S : Type} (Format_RFC3339 : time_Time -> string)
    (flattenStringList : list string -> list string)
    (conn : Service time_Time S) (meta : AWSClient) (m : Machine S)
    (api : RestApi time_Time) (s' : S) :
  GetRestApi conn (Some (Id (data m))) (remote m) = (Success api, s') ->
  let read := resourceAwsApiGatewayRestApiRead Format_RFC3339
                flattenStringList conn meta m in
  (forall (submitted : string) (t : time_Time),
     utf8.ValidString submitted = true ->
     ra_Policy api = Some (escapeOneLevel submitted) ->
     ra_CreatedDate api = Some t ->
     strconv.Unquote (quoted (escapeOneLevel submitted)) = Success submitted
     /\ fst read = Ok tt
     /\ policy (planned (data (snd read))) = submitted)
  /\ (forall err,
        strconv.Unquote (quoted (aws.StringValue (ra_Policy api)))
        = Failure err ->
        fst read = Err (errors_New ("error unescaping policy: " ++ Error err))).
Proof.
  intros Hget read. split.
  - intros submitted t Hvalid Hpolicy Hdate.
    pose proof (Unquoting.Unquote_escaped submitted Hvalid) as Hunquote.
    split; [exact Hunquote|].
    assert (Hu : strconv.Unquote
                   (String dquote (aws.StringValue (ra_Policy api))
                    ++ String dquote EmptyString)%string
                 = Success submitted).
    { rewrite Hpolicy. exact Hunquote. }
    subst read.
    rewrite (Read_success _ Format_RFC3339 flattenStringList _ conn meta
               m api s' submitted t Hget Hu Hdate).
    split; reflexivity.
  - intros err Hfail. subst read.
    exact (Read_unquote_failure _ Format_RFC3339 flattenStringList _ conn
             meta m api s' err Hget Hfail).
Qed.

Lemma policy_round_trips_witness :
  policy (planned (data (snd
    (resourceAwsApiGatewayRestApiRead Examples.format Examples.same_list
       Examples.escaping Examples.client
       (Examples.machine (Examples.resource Examples.attributes0
                                            Examples.attributes0))))))
  = Examples.policy_document.
Proof.
  destruct (policy_round_trips Examples.format Examples.same_list
              Examples.escaping Examples.client
              (Examples.machine (Examples.resource Examples.attributes0
                                                   Examples.attributes0))
              (Examples.restApi
                 (Some (escapeOneLevel Examples.policy_document)))
              O eq_refl) as [H _].
  destruct (H Examples.policy_document tt eq_refl eq_refl eq_refl)
    as [_ [_ E]].
  exact E.
Defined.

(** ** Further properties of the translation into patch operations *)

(** The empty patch list: returned exactly when no field changed, but for
    an endpoint type that changed to an empty configuration. *)
Theorem no_operations_iff_nothing_to_patch
    (escapeJsonPointer : string -> string) (d : ResourceData) :
  resourceAwsApiGatewayRestApiUpdateOperations escapeJsonPointer d = Some []
  <-> (changed FName d = false /\ changed FDescription d = false
       /\ changed FPolicy d = false
       /\ changed FMinimumCompressionSize d = false
       /\ changed FBinaryMediaTypes d = false
       /\ (changed FEndpointConfigurationType d = false
           \/ endpoint_configuration (planned d) = [])).
Proof.
  rewrite UpdateOperations_groups. unfold panics, groups. simpl.
  unfold spec_group_name, spec_group_description, spec_group_policy,
    spec_group_binary_media_types, spec_group_endpoint_configuration.
  split.
  - destruct (HasChange DeepEqual_list endpoint_configuration_0_types d);
      cbn [andb].
    + destruct (endpoint_configuration (planned d)) as [|b l].
      * intros [= H].
        destruct (HasChange DeepEqual_string name d); [discriminate H|].
        destruct (HasChange DeepEqual_string description d);
          [discriminate H|].
        destruct (HasChange DeepEqual_string policy d); [discriminate H|].
        destruct (HasChange DeepEqual_int minimum_compression_size d);
          [discriminate H|].
        destruct (HasChange DeepEqual_list binary_media_types d) eqn:E.
        { exfalso. unfold HasChange, GetChange, DeepEqual_list in E.
          destruct (binary_media_types (prior d)),
                   (binary_media_types (planned d)); try discriminate H.
          discriminate E. }
        repeat split; try reflexivity. now right.
      * destruct (types b); [discriminate|]. intros [= H]. exfalso.
        apply app_eq_nil in H as [_ H]. apply app_eq_nil in H as [_ H].
        apply app_eq_nil in H as [_ H]. apply app_eq_nil in H as [_ H].
        apply app_eq_nil in H as [_ H]. discriminate H.
    + intros [= H].
      destruct (HasChange DeepEqual_string name d); [discriminate H|].
      destruct (HasChange DeepEqual_string description d);
        [discriminate H|].
      destruct (HasChange DeepEqual_string policy d); [discriminate H|].
      destruct (HasChange DeepEqual_int minimum_compression_size d);
        [discriminate H|].
      destruct (HasChange DeepEqual_list binary_media_types d) eqn:E.
      { exfalso. unfold HasChange, GetChange, DeepEqual_list in E.
        destruct (binary_media_types (prior d)),
                 (binary_media_types (planned d)); try discriminate H.
        discriminate E. }
      repeat split; try reflexivity. now left.
  - intros (-> & -> & -> & -> & -> & [-> | ->]); cbn [andb]; [reflexivity|].
    rewrite andb_false_r.
    now destruct (HasChange DeepEqual_list endpoint_configuration_0_types d).
Qed.

Lemma no_operations_witness :
  resourceAwsApiGatewayRestApiUpdateOperations Examples.no_escape
    Examples.endpoint_cleared = Some [].
Proof.
  apply (no_operations_iff_nothing_to_patch Examples.no_escape
           Examples.endpoint_cleared).
  repeat split; try reflexivity. now right.
Defined.

(** Every operation of a patch list has the shape the remote service
    accepts: no [from], a path from the root, and a value exactly when it
    is a replace; the others are removes and adds. *)
Theorem operations_are_well_formed
    (escapeJsonPointer : string -> string) (d : ResourceData)
    (ops : list PatchOperation) :
  resourceAwsApiGatewayRestApiUpdateOperations escapeJsonPointer d = Some ops ->
  forallb well_formed ops = true.
Proof.
  rewrite UpdateOperations_groups.
  destruct (panics d); [discriminate|]. intros [= <-].
  unfold groups. rewrite !forallb_app. simpl.
  unfold spec_group_name, spec_group_description, spec_group_policy,
    spec_group_binary_media_types, spec_group_endpoint_configuration.
  assert (Hmap : forall l : list string,
            forallb well_formed (map (remove_op escapeJsonPointer) l) = true
            /\ forallb well_formed (map (add_op escapeJsonPointer) l) = true).
  { induction l as [|v l [IH1 IH2]]; [now split|]. simpl.
    now rewrite IH1, IH2. }
  repeat match goal with
  | |- context [if ?c then _ else _] => destruct c
  end; simpl; rewrite ?forallb_app, ?(proj1 (Hmap _)), ?(proj2 (Hmap _));
    try reflexivity.
  all: destruct (endpoint_configuration (planned d)); reflexivity.
Qed.

Lemma operations_are_well_formed_witness :
  forallb well_formed
    [ remove_op Examples.no_escape "a"; remove_op Examples.no_escape "b";
      add_op Examples.no_escape "b"; add_op Examples.no_escape "c" ] = true.
Proof.
  apply (operations_are_well_formed Examples.no_escape
           Examples.media_types_changed).
  reflexivity.
Defined.

(** The translation panics exactly when the endpoint type changed and the
    first block of the new configuration names no type. *)
Theorem translation_panics_iff_type_missing
    (escapeJsonPointer : string -> string) (d : ResourceData) :
  resourceAwsApiGatewayRestApiUpdateOperations escapeJsonPointer d = None
  <-> (changed FEndpointConfigurationType d = true
       /\ exists m rest,
            endpoint_configuration (planned d) = m :: rest /\ types m = []).
Proof.
  rewrite UpdateOperations_groups. unfold panics. simpl. split.
  - destruct (HasChange DeepEqual_list endpoint_configuration_0_types d);
      [|discriminate].
    destruct (endpoint_configuration (planned d)) as [|m rest];
      [discriminate|].
    destruct (types m) eqn:E; [|discriminate].
    intros _. split; [reflexivity|]. now exists m, rest.
  - intros [-> (m & rest & -> & ->)]. reflexivity.
Qed.

Lemma translation_panics_witness :
  resourceAwsApiGatewayRestApiUpdateOperations Examples.no_escape
    Cases.endpoint_without_type = None.
Proof.
  apply (translation_panics_iff_type_missing Examples.no_escape
           Cases.endpoint_without_type).
  split; [reflexivity|]. now exists {| types := [] |}, [].
Defined.





(** ** Further properties of the runs *)

Section FurtherRuns.

Variable time_Time : Type.
Variable Format_RFC3339 : time_Time -> string.
Variable expandStringList : list string -> list string.
Variable flattenStringList : list string -> list string.
Variable S : Type.
Variable conn : Service time_Time S.
Variable meta : AWSClient.

(** The discovery loop makes no call and, when every item has a path,
    stores the identifier of the first item whose path is the root. *)
Lemma scanItems_keeps_trace (items : list Resource) (m : Machine S) :
  trace (snd (scanItems items m)) = trace m
  /\ remote (snd (scanItems items m)) = remote m.
Proof.
  induction items as [|item rest IH]; simpl; [now split|].
  unfold bind. destruct (res_Path item) as [path|]; simpl; [|now split].
  destruct (path =? "/")%string; [now split|exact IH].
Qed.

Lemma scanItems_find (items : list Resource) (m : Machine S) :
  Forall has_path items ->
  scanItems items m
  = (Ok tt,
     match find is_root items with
     | Some item =>
       {| data := Set_ (with_root_resource_id (aws.StringValue (res_Id item)))
                       (data m);
          remote := remote m; trace := trace m |}
     | None => m
     end).
Proof.
  induction 1 as [|item rest Hitem _ IH]; simpl; [reflexivity|].
  unfold bind, is_root. unfold has_path in Hitem.
  destruct (res_Path item) as [path|]; [|contradiction]. simpl.
  destruct (path =? "/")%string; [reflexivity|exact IH].
Qed.

Lemma RefreshResources_one_call (m : Machine S) :
  trace (snd (resourceAwsApiGatewayRestApiRefreshResources conn m))
  = trace m ++ [CallGetResources (Some (Id (data m)))].
Proof.
  unfold resourceAwsApiGatewayRestApiRefreshResources, bind, getData, call.
  unfold aws.String.
  destruct (GetResources conn (Some (Id (data m))) (remote m))
    as [[items|err] s1]; [|reflexivity].
  now rewrite (proj1 (scanItems_keeps_trace items _)).
Qed.

Lemma scanItems_keeps_identifier (items : list Resource) (m : Machine S) :
  Id (data (snd (scanItems items m))) = Id (data m).
Proof.
  induction items as [|item rest IH]; simpl; [reflexivity|].
  unfold bind. destruct (res_Path item) as [path|]; simpl; [|reflexivity].
  destruct (path =? "/")%string; [reflexivity|apply IH].
Qed.

(** After the identifier is set, a create lists the resources of the new
    REST API, and makes lookups only from then on. *)
Lemma Create_tail (m : Machine S) :
  exists rest,
    trace (snd (bind (resourceAwsApiGatewayRestApiRefreshResources conn)
                     (fun _ => resourceAwsApiGatewayRestApiRead
                                 Format_RFC3339 flattenStringList conn meta)
                     m))
    = trace m ++ CallGetResources (Some (Id (data m))) :: rest
    /\ Forall is_lookup rest.
Proof.
  unfold bind at 1.
  pose proof (RefreshResources_one_call m) as H.
  destruct (resourceAwsApiGatewayRestApiRefreshResources conn m)
    as [[a|e|] m1]; simpl in H.
  - destruct (emits_Read _ Format_RFC3339 flattenStringList _ conn meta m1)
      as [rest [E F]].
    exists rest. split; [|exact F]. rewrite E, H. now rewrite <- app_assoc.
  - exists []. now split.
  - exists []. now split.
Qed.

(** A create after its first call has succeeded: the identifier is
    assigned, then come the overwrite, if there is a body, the listing and
    the read. *)
Lemma Create_after_first_call (m : Machine S) (gateway : RestApi time_Time)
    (id : string) (s1 : S) :
  CreateRestApi conn (createParams expandStringList (data m)) (remote m)
  = (Success gateway, s1) ->
  ra_Id gateway = Some id ->
  resourceAwsApiGatewayRestApiCreate Format_RFC3339 expandStringList
    flattenStringList conn meta m
  = bind (if negb (body (planned (data m)) =? "")%string
          then
            bind (call (CallPutRestApi
                          {| pra_Body := body (planned (data m));
                             pra_Mode := Some "overwrite";
                             pra_RestApiId := Some id |})
                       (PutRestApi conn
                          {| pra_Body := body (planned (data m));
                             pra_Mode := Some "overwrite";
                             pra_RestApiId := Some id |}))
                 (fun r => match r with
                           | Failure err =>
                             throw (errwrap_Wrapf
                                      "Error creating API Gateway specification: "
                                      err)
                           | Success _ => ret tt
                           end)
          else ret tt)
         (fun _ =>
            bind (resourceAwsApiGatewayRestApiRefreshResources conn)
                 (fun _ => resourceAwsApiGatewayRestApiRead Format_RFC3339
                             flattenStringList conn meta))
         {| data := SetId id (data m); remote := s1;
            trace := trace m ++ [CallCreateRestApi
                                   (createParams expandStringList (data m))] |}.
Proof.
  intros Hc Hid. unfold resourceAwsApiGatewayRestApiCreate.
  unfold bind at 1. unfold getData at 1.
  unfold bind at 1. unfold call at 1. rewrite Hc. rewrite Hid.
  reflexivity.
Qed.

End FurtherRuns.

(** *** Create *)

(** A create whose first call fails ends with it: the error is reported
    under a label of the create, no identifier is assigned and no other
    call is made. *)
Theorem create_failure_is_reported
    {time_Time S : Type} (Format_RFC3339 : time_Time -> string)
    (expandStringList flattenStringList : list string -> list string)
    (conn : Service time_Time S) (meta : AWSClient) (m : Machine S)
    (err : error) (s1 : S) :
  CreateRestApi conn (createParams expandStringList (data m)) (remote m)
  = (Failure err, s1) ->
  resourceAwsApiGatewayRestApiCreate Format_RFC3339 expandStringList
    flattenStringList conn meta m
  = (Err (errors_New ("Error creating API Gateway: " ++ Error err)),
     {| data := data m; remote := s1;
        trace := trace m ++ [CallCreateRestApi
                               (createParams expandStringList (data m))] |}).
Proof.
  intros H. unfold resourceAwsApiGatewayRestApiCreate, bind, getData, call.
  rewrite H. reflexivity.
Qed.

Lemma create_failure_witness :
  fst (resourceAwsApiGatewayRestApiCreate Examples.format Examples.same_list
         Examples.same_list Cases.create_fails Examples.client
         (Examples.machine Cases.unchanged))
  = Err (errors_New
           "Error creating API Gateway: BadRequestException: Invalid request").
Proof.
  rewrite (create_failure_is_reported Examples.format Examples.same_list
             Examples.same_list Cases.create_fails Examples.client
             (Examples.machine Cases.unchanged) Cases.failure O eq_refl).
  reflexivity.
Defined.

(** A create whose REST API was made but whose body could not be applied
    ends in a wrapped error of the overwrite, with the new identifier
    already assigned to the local record, after these two calls only. *)
Theorem create_overwrite_failure_keeps_identifier
    {time_Time S : Type} (Format_RFC3339 : time_Time -> string)
    (expandStringList flattenStringList : list string -> list string)
    (conn : Service time_Time S) (meta : AWSClient) (m : Machine S)
    (gateway : RestApi time_Time) (id : string) (err : error) (s1 s2 : S) :
  CreateRestApi conn (createParams expandStringList (data m)) (remote m)
  = (Success gateway, s1) ->
  ra_Id gateway = Some id ->
  body (planned (data m)) <> "" ->
  let overwrite := {| pra_Body := body (planned (data m));
                      pra_Mode := Some "overwrite";
                      pra_RestApiId := Some id |} in
  PutRestApi conn overwrite s1 = (Failure err, s2) ->
  resourceAwsApiGatewayRestApiCreate Format_RFC3339 expandStringList
    flattenStringList conn meta m
  = (Err (errwrap_Wrapped
            ("Error creating API Gateway specification: " ++ Error err) err),
     {| data := SetId id (data m); remote := s2;
        trace := trace m
                 ++ [ CallCreateRestApi (createParams expandStringList (data m));
                      CallPutRestApi overwrite ] |}).
Proof.
  intros Hc Hid Hbody overwrite Hp.
  unfold resourceAwsApiGatewayRestApiCreate, bind, getData, call.
  rewrite Hc, Hid. simpl. unfold DeepEqual_string, Get. simpl.
  destruct (String.eqb_spec (body (planned (data m))) ""); [contradiction|].
  simpl. unfold aws.String, PutModeOverwrite. fold overwrite. rewrite Hp.
  simpl. now rewrite <- app_assoc.
Qed.

Lemma create_overwrite_failure_witness :
  Id (data (snd (resourceAwsApiGatewayRestApiCreate Examples.format
                   Examples.same_list Examples.same_list
                   Cases.overwrite_fails Examples.client
                   (Examples.machine Examples.body_added))))
  = "a1b2c3".
Proof.
  rewrite (create_overwrite_failure_keeps_identifier Examples.format
             Examples.same_list Examples.same_list Cases.overwrite_fails
             Examples.client (Examples.machine Examples.body_added)
             (Examples.restApi None) "a1b2c3" Cases.failure O O
             eq_refl eq_refl);
    [reflexivity|discriminate|reflexivity].
Defined.

(** After a successful first call a create works under the identifier the
    service assigned: with no body it goes on to list the resources of
    that REST API, with a body it first overwrites that REST API with the
    document; all later calls are lookups. *)
Theorem create_calls_in_order
    {time_Time S : Type} (Format_RFC3339 : time_Time -> string)
    (expandStringList flattenStringList : list string -> list string)
    (conn : Service time_Time S) (meta : AWSClient) (m : Machine S)
    (gateway : RestApi time_Time) (id : string) (s1 : S) :
  CreateRestApi conn (createParams expandStringList (data m)) (remote m)
  = (Success gateway, s1) ->
  ra_Id gateway = Some id ->
  let run := resourceAwsApiGatewayRestApiCreate Format_RFC3339
               expandStringList flattenStringList conn meta m in
  let create := CallCreateRestApi (createParams expandStringList (data m)) in
  let overwrite := {| pra_Body := body (planned (data m));
                      pra_Mode := Some "overwrite";
                      pra_RestApiId := Some id |} in
  (body (planned (data m)) = "" ->
   exists rest,
     trace (snd run)
     = trace m ++ create :: CallGetResources (Some id) :: rest
     /\ Forall is_lookup rest)
  /\ (body (planned (data m)) <> "" ->
      forall out s2,
        PutRestApi conn overwrite s1 = (Success out, s2) ->
        exists rest,
          trace (snd run)
          = trace m ++ create :: CallPutRestApi overwrite
                    :: CallGetResources (Some id) :: rest
          /\ Forall is_lookup rest).
Proof.
  intros Hc Hid run create overwrite. subst run.
  rewrite (Create_after_first_call _ Format_RFC3339 expandStringList
             flattenStringList _ conn meta m gateway id s1 Hc Hid).
  fold overwrite. split.
  - intros Hb. rewrite Hb. cbn [String.eqb negb].
    unfold bind at 1. unfold ret at 1.
    match goal with
    | |- context [snd (bind _ _ ?m1)] =>
      destruct (Create_tail _ Format_RFC3339 flattenStringList _ conn meta m1)
        as [rest [E F]]
    end.
    exists rest. split; [|exact F]. rewrite E. cbn [trace data Id SetId].
    now rewrite <- app_assoc.
  - intros Hb out s2 Hp.
    destruct (String.eqb_spec (body (planned (data m))) ""); [contradiction|].
    cbn [negb].
    unfold bind at 1. unfold bind at 1. unfold call at 1.
    cbn [remote]. rewrite Hp. unfold ret at 1.
    match goal with
    | |- context [snd (bind _ _ ?m1)] =>
      destruct (Create_tail _ Format_RFC3339 flattenStringList _ conn meta m1)
        as [rest [E F]]
    end.
    exists rest. split; [|exact F]. rewrite E. cbn [trace data Id SetId].
    now rewrite <- !app_assoc.
Qed.

Lemma create_calls_witness :
  exists rest,
    trace (snd (resourceAwsApiGatewayRestApiCreate Examples.format
                  Examples.same_list Examples.same_list Examples.steady
                  Examples.client (Examples.machine Examples.body_added)))
    = [] ++ CallCreateRestApi
              (createParams Examples.same_list Examples.body_added)
            :: CallPutRestApi {| pra_Body := "{}"; pra_Mode := Some "overwrite";
                                 pra_RestApiId := Some "a1b2c3" |}
            :: CallGetResources (Some "a1b2c3") :: rest
    /\ Forall is_lookup rest.
Proof.
  destruct (create_calls_in_order Examples.format Examples.same_list
              Examples.same_list Examples.steady Examples.client
              (Examples.machine Examples.body_added)
              (Examples.restApi None) "a1b2c3" O eq_refl eq_refl) as [_ H].
  apply (H ltac:(discriminate) (Examples.restApi None) O eq_refl).
Defined.

(** *** Resource discovery *)

(** The discovery makes one call, the listing. When the listing fails its
    error is returned as it is and the local record is unchanged; when it
    succeeds with items that all have a path, the local record gets the
    identifier of the first item whose path is the root, and is unchanged
    when there is none. *)
Theorem discovery_stores_first_root
    {time_Time S : Type} (conn : Service time_Time S) (m : Machine S) :
  let listing := GetResources conn (Some (Id (data m))) (remote m) in
  let after d := {| data := d; remote := snd listing;
                    trace := trace m ++ [CallGetResources (Some (Id (data m)))] |} in
  (forall err, fst listing = Failure err ->
     resourceAwsApiGatewayRestApiRefreshResources conn m
     = (Err err, after (data m)))
  /\ (forall items, fst listing = Success items -> Forall has_path items ->
        resourceAwsApiGatewayRestApiRefreshResources conn m
        = (Ok tt,
           after match find is_root items with
                 | Some item =>
                   Set_ (with_root_resource_id (aws.StringValue (res_Id item)))
                        (data m)
                 | None => data m
                 end)).
Proof.
  intros listing after. subst listing after.
  unfold resourceAwsApiGatewayRestApiRefreshResources, bind, getData, call.
  unfold aws.String.
  destruct (GetResources conn (Some (Id (data m))) (remote m)) as [r s1].
  simpl. split.
  - intros err ->. reflexivity.
  - intros items -> Hpaths. rewrite (scanItems_find _ items _ Hpaths).
    now destruct (find is_root items).
Qed.

Lemma discovery_witness :
  root_resource_id (planned (data (snd
    (resourceAwsApiGatewayRestApiRefreshResources Cases.all_fine
       (Examples.machine Cases.unchanged)))))
  = "root".
Proof.
  destruct (discovery_stores_first_root Cases.all_fine
              (Examples.machine Cases.unchanged)) as [_ H].
  rewrite (H _ eq_refl).
  - reflexivity.
  - repeat constructor; discriminate.
Defined.

(** *** Read *)

(** Every read makes exactly one call, the lookup of the REST API under
    the identifier of the local record, however it ends. *)
Theorem read_makes_one_lookup
    {time_Time S : Type} (Format_RFC3339 : time_Time -> string)
    (flattenStringList : list string -> list string)
    (conn : Service time_Time S) (meta : AWSClient) (m : Machine S) :
  let run := resourceAwsApiGatewayRestApiRead Format_RFC3339
               flattenStringList conn meta m in
  trace (snd run) = trace m ++ [CallGetRestApi (Some (Id (data m)))]
  /\ remote (snd run) = snd (GetRestApi conn (Some (Id (data m))) (remote m)).
Proof.
  intros run. subst run.
  destruct (GetRestApi conn (Some (Id (data m))) (remote m))
    as [[api|err] s1] eqn:E;
    unfold resourceAwsApiGatewayRestApiRead, bind, getData, call, modifyData,
      deref, ret, panic, throw, aws.String;
    rewrite E; cbv beta iota zeta.
  - destruct (strconv.Unquote _) as [policy_|e]; [|split; reflexivity].
    destruct (ra_MinimumCompressionSize api), (ra_CreatedDate api);
      split; reflexivity.
  - destruct err as [code text| | |]; try (split; reflexivity).
    destruct (code =? "NotFoundException")%string; split; reflexivity.
Qed.

(** A read that ends well has unquoted the policy and found a creation
    date. *)
Lemma Read_ok_inv
    {time_Time S : Type} (Format_RFC3339 : time_Time -> string)
    (flattenStringList : list string -> list string)
    (conn : Service time_Time S) (meta : AWSClient) (m : Machine S)
    (api : RestApi time_Time) (s1 : S) :
  GetRestApi conn (Some (Id (data m))) (remote m) = (Success api, s1) ->
  fst (resourceAwsApiGatewayRestApiRead Format_RFC3339 flattenStringList
         conn meta m) = Ok tt ->
  exists policy_ t,
    strconv.Unquote (String dquote (aws.StringValue (ra_Policy api))
                     ++ String dquote EmptyString)%string = Success policy_
    /\ ra_CreatedDate api = Some t.
Proof.
  intros E.
  unfold resourceAwsApiGatewayRestApiRead, bind, getData, call, modifyData,
    deref, ret, panic, throw, aws.String.
  rewrite E. cbv beta iota zeta.
  destruct (strconv.Unquote _) as [policy_|e]; [|discriminate].
  destruct (ra_MinimumCompressionSize api), (ra_CreatedDate api) as [t|];
    try discriminate; intros _; now exists policy_, t.
Qed.

(** The sentinel of the minimum compression size, there and back: a read
    stores -1 when the remote REST API has no size and the remote size
    otherwise, and a create request built from what the read stored
    carries the size of the remote REST API again, none for none, as long
    as a remote size is above -1. *)
Theorem read_then_create_keeps_compression
    {time_Time S : Type} (Format_RFC3339 : time_Time -> string)
    (expandStringList flattenStringList : list string -> list string)
    (conn : Service time_Time S) (meta : AWSClient) (m : Machine S)
    (api : RestApi time_Time) (s1 : S) :
  GetRestApi conn (Some (Id (data m))) (remote m) = (Success api, s1) ->
  fst (resourceAwsApiGatewayRestApiRead Format_RFC3339 flattenStringList
         conn meta m) = Ok tt ->
  let d := data (snd (resourceAwsApiGatewayRestApiRead Format_RFC3339
                        flattenStringList conn meta m)) in
  minimum_compression_size (planned d)
  = match ra_MinimumCompressionSize api with
    | None => (-1)%Z
    | Some v => v
    end
  /\ ((forall v, ra_MinimumCompressionSize api = Some v -> (-1 < v)%Z) ->
      cra_MinimumCompressionSize (createParams expandStringList d)
      = ra_MinimumCompressionSize api).
Proof.
  intros E Hok d. subst d.
  destruct (Read_ok_inv Format_RFC3339 flattenStringList conn meta m api s1
              E Hok) as (policy_ & t & Hu & Hd).
  rewrite (Read_success _ Format_RFC3339 flattenStringList _ conn meta
             m api s1 policy_ t E Hu Hd).
  cbn [snd data planned minimum_compression_size]. split; [reflexivity|].
  intros Hv. unfold createParams, Get.
  cbn [planned minimum_compression_size cra_MinimumCompressionSize].
  destruct (ra_MinimumCompressionSize api) as [v|]; [|reflexivity].
  specialize (Hv v eq_refl).
  destruct (Z.gtb_spec v (-1)); [reflexivity|lia].
Qed.

Lemma read_then_create_witness :
  cra_MinimumCompressionSize
    (createParams Examples.same_list
       (data (snd (resourceAwsApiGatewayRestApiRead Examples.format
                     Examples.same_list Cases.compressing Examples.client
                     (Examples.machine Cases.unchanged)))))
  = Some 1024%Z.
Proof.
  destruct (read_then_create_keeps_compression Examples.format
              Examples.same_list Examples.same_list Cases.compressing
              Examples.client (Examples.machine Cases.unchanged)
              Cases.compressed O eq_refl eq_refl) as [_ H].
  apply H. intros v [= <-]. reflexivity.
Defined.

(** A read that ends well keeps the identifier, the prior state, the body
    and the root resource identifier of the local record; and a second
    read that gets the same answer changes nothing any more. *)
Theorem read_is_idempotent
    {time_Time S : Type} (Format_RFC3339 : time_Time -> string)
    (flattenStringList : list string -> list string)
    (conn : Service time_Time S) (meta : AWSClient) (m : Machine S)
    (api : RestApi time_Time) (s1 : S) :
  GetRestApi conn (Some (Id (data m))) (remote m) = (Success api, s1) ->
  let read := resourceAwsApiGatewayRestApiRead Format_RFC3339
                flattenStringList conn meta in
  fst (read m) = Ok tt ->
  (Id (data (snd (read m))) = Id (data m)
   /\ prior (data (snd (read m))) = prior (data m)
   /\ body (planned (data (snd (read m)))) = body (planned (data m))
   /\ root_resource_id (planned (data (snd (read m))))
      = root_resource_id (planned (data m)))
  /\ (forall s2,
        GetRestApi conn (Some (Id (data m))) s1 = (Success api, s2) ->
        fst (read (snd (read m))) = Ok tt
        /\ data (snd (read (snd (read m)))) = data (snd (read m))).
Proof.
  intros E read Hok. subst read.
  destruct (Read_ok_inv Format_RFC3339 flattenStringList conn meta m api s1
              E Hok) as (policy_ & t & Hu & Hd).
  rewrite (Read_success _ Format_RFC3339 flattenStringList _ conn meta
             m api s1 policy_ t E Hu Hd).
  cbn [snd data]. split; [repeat split|].
  intros s2 E2.
  match goal with
  | |- context [resourceAwsApiGatewayRestApiRead _ _ _ _ ?m1] =>
    rewrite (Read_success _ Format_RFC3339 flattenStringList _ conn meta
               m1 api s2 policy_ t E2 Hu Hd)
  end.
  split; reflexivity.
Qed.

Lemma read_is_idempotent_witness :
  data (snd (resourceAwsApiGatewayRestApiRead Examples.format
               Examples.same_list Cases.compressing Examples.client
               (snd (resourceAwsApiGatewayRestApiRead Examples.format
                       Examples.same_list Cases.compressing Examples.client
                       (Examples.machine Cases.unchanged)))))
  = data (snd (resourceAwsApiGatewayRestApiRead Examples.format
                 Examples.same_list Cases.compressing Examples.client
                 (Examples.machine Cases.unchanged))).
Proof.
  destruct (read_is_idempotent Examples.format Examples.same_list
              Cases.compressing Examples.client
              (Examples.machine Cases.unchanged) Cases.compressed O
              eq_refl eq_refl) as [_ H].
  exact (proj2 (H O eq_refl)).
Defined.

(** A policy that comes back with a line feed in it makes the read fail
    with the unescaping error: the unquoting takes no line feed as it
    is. *)
Theorem read_rejects_policy_with_line_feed
    {time_Time S : Type} (Format_RFC3339 : time_Time -> string)
    (flattenStringList : list string -> list string)
    (conn : Service time_Time S) (meta : AWSClient) (m : Machine S)
    (api : RestApi time_Time) (s1 : S) (p : string) :
  GetRestApi conn (Some (Id (data m))) (remote m) = (Success api, s1) ->
  ra_Policy api = Some p ->
  strconv.contains p newline = true ->
  fst (resourceAwsApiGatewayRestApiRead Format_RFC3339 flattenStringList
         conn meta m)
  = Err (errors_New "error unescaping policy: invalid syntax").
Proof.
  intros E Hp Hn.
  apply (Read_unquote_failure _ Format_RFC3339 flattenStringList _ conn meta
           m api s1 strconv.ErrSyntax E).
  rewrite Hp. cbn [aws.StringValue].
  change (String dquote p ++ String dquote "")%string with (quoted p).
  now rewrite Unquoting.Unquote_quoted, Hn.
Qed.

Lemma read_rejects_line_feed_witness :
  fst (resourceAwsApiGatewayRestApiRead Examples.format Examples.same_list
         Cases.newline_policy Examples.client
         (Examples.machine Cases.unchanged))
  = Err (errors_New "error unescaping policy: invalid syntax").
Proof.
  apply (read_rejects_policy_with_line_feed Examples.format
           Examples.same_list Cases.newline_policy Examples.client
           (Examples.machine Cases.unchanged)
           (Examples.restApi (Some Cases.policy_with_newline)) O
           Cases.policy_with_newline);
    reflexivity.
Defined.

(** A policy that comes back with no backslash, no quotation mark and no
    line feed in it, valid UTF-8, is stored as it is; so is the empty
    policy of an answer that has none. *)
Theorem read_stores_plain_policy
    {time_Time S : Type} (Format_RFC3339 : time_Time -> string)
    (flattenStringList : list string -> list string)
    (conn : Service time_Time S) (meta : AWSClient) (m : Machine S)
    (api : RestApi time_Time) (s1 : S) (t : time_Time) :
  GetRestApi conn (Some (Id (data m))) (remote m) = (Success api, s1) ->
  ra_CreatedDate api = Some t ->
  let p := aws.StringValue (ra_Policy api) in
  strconv.contains p newline = false ->
  strconv.contains p backslash = false ->
  strconv.contains p dquote = false ->
  utf8.ValidString p = true ->
  fst (resourceAwsApiGatewayRestApiRead Format_RFC3339 flattenStringList
         conn meta m) = Ok tt
  /\ policy (planned (data (snd
       (resourceAwsApiGatewayRestApiRead Format_RFC3339 flattenStringList
          conn meta m)))) = p.
Proof.
  intros E Hd p Hn Hb Hq Hv.
  assert (Hu : strconv.Unquote
                 (String dquote (aws.StringValue (ra_Policy api))
                  ++ String dquote EmptyString)%string = Success p).
  { change (String dquote (aws.StringValue (ra_Policy api))
            ++ String dquote "")%string with (quoted p).
    rewrite Unquoting.Unquote_quoted, Hn, Hb, Hq, Hv. reflexivity. }
  rewrite (Read_success _ Format_RFC3339 flattenStringList _ conn meta
             m api s1 p t E Hu Hd).
  split; reflexivity.
Qed.

Lemma read_stores_plain_policy_witness :
  policy (planned (data (snd
    (resourceAwsApiGatewayRestApiRead Examples.format Examples.same_list
       Examples.steady Examples.client
       (Examples.machine Cases.unchanged))))) = "".
Proof.
  apply (read_stores_plain_policy Examples.format Examples.same_list
           Examples.steady Examples.client
           (Examples.machine Cases.unchanged) (Examples.restApi None) O tt);
    reflexivity.
Defined.

(** *** Update *)

(** A plan that changes nothing translates into no operation. *)
Lemma unchanged_no_operations
    (escapeJsonPointer : string -> string) (d : ResourceData) :
  prior d = planned d ->
  resourceAwsApiGatewayRestApiUpdateOperations escapeJsonPointer d = Some [].
Proof.
  intros H. rewrite UpdateOperations_groups.
  assert (Hs : forall key : Attributes -> string,
            HasChange DeepEqual_string key d = false).
  { intros key. unfold HasChange, GetChange, DeepEqual_string.
    now rewrite H, String.eqb_refl. }
  assert (Hl : forall key : Attributes -> list string,
            HasChange DeepEqual_list key d = false).
  { intros key. unfold HasChange, GetChange, DeepEqual_list. rewrite H.
    now destruct (list_eq_dec string_dec (key (planned d)) (key (planned d))). }
  assert (Hz : HasChange DeepEqual_int minimum_compression_size d = false).
  { unfold HasChange, GetChange, DeepEqual_int. now rewrite H, Z.eqb_refl. }
  unfold panics, groups, group, spec_group_name, spec_group_description,
    spec_group_policy, spec_group_binary_media_types,
    spec_group_endpoint_configuration.
  now rewrite !Hs, !Hl, Hz.
Qed.

(** The patch call is made whatever the plan: an update that changes
    nothing still sends a patch, with an empty list of operations, and
    then only looks the REST API up. *)
Theorem update_patches_even_without_change
    {time_Time S : Type} (Format_RFC3339 : time_Time -> string)
    (flattenStringList : list string -> list string)
    (escapeJsonPointer : string -> string)
    (conn : Service time_Time S) (meta : AWSClient) (m : Machine S) :
  prior (data m) = planned (data m) ->
  exists rest,
    trace (snd (resourceAwsApiGatewayRestApiUpdate Format_RFC3339
                  flattenStringList escapeJsonPointer conn meta m))
    = trace m ++ CallUpdateRestApi {| ura_PatchOperations := [];
                                      ura_RestApiId := Some (Id (data m)) |}
              :: rest
    /\ Forall is_lookup rest.
Proof.
  intros H.
  apply (Update_no_overwrite _ Format_RFC3339 flattenStringList
           escapeJsonPointer _ conn meta m []).
  - left. unfold HasChange, GetChange, DeepEqual_string.
    now rewrite H, String.eqb_refl.
  - now apply unchanged_no_operations.
Qed.

Lemma update_patches_witness :
  exists rest,
    trace (snd (resourceAwsApiGatewayRestApiUpdate Examples.format
                  Examples.same_list Examples.no_escape Examples.steady
                  Examples.client (Examples.machine Cases.unchanged)))
    = [] ++ CallUpdateRestApi {| ura_PatchOperations := [];
                                 ura_RestApiId := Some "a1b2c3" |}
            :: rest
    /\ Forall is_lookup rest.
Proof.
  apply (update_patches_even_without_change Examples.format
           Examples.same_list Examples.no_escape Examples.steady
           Examples.client (Examples.machine Cases.unchanged)).
  reflexivity.
Defined.

(** After the patch call of an update that needs no overwrite: a failure
    of the call is the error of the update, as it is, with no lookup and
    the local record untouched; after its success the update is the read
    of what the patch left. *)
Theorem update_ends_with_patch_or_read
    {time_Time S : Type} (Format_RFC3339 : time_Time -> string)
    (flattenStringList : list string -> list string)
    (escapeJsonPointer : string -> string)
    (conn : Service time_Time S) (meta : AWSClient) (m : Machine S)
    (ops : list PatchOperation) :
  HasChange DeepEqual_string body (data m) = false
  \/ body (planned (data m)) = "" ->
  resourceAwsApiGatewayRestApiUpdateOperations escapeJsonPointer (data m)
  = Some ops ->
  let update := resourceAwsApiGatewayRestApiUpdate Format_RFC3339
                  flattenStringList escapeJsonPointer conn meta m in
  let patch := {| ura_PatchOperations := ops;
                  ura_RestApiId := Some (Id (data m)) |} in
  let after := {| data := data m;
                  remote := snd (UpdateRestApi conn patch (remote m));
                  trace := trace m ++ [CallUpdateRestApi patch] |} in
  match fst (UpdateRestApi conn patch (remote m)) with
  | Failure err => update = (Err err, after)
  | Success _ =>
    update = resourceAwsApiGatewayRestApiRead Format_RFC3339
               flattenStringList conn meta after
  end.
Proof.
  intros Hbody Hops update patch after. subst update after.
  assert (E : resourceAwsApiGatewayRestApiUpdate Format_RFC3339
                flattenStringList escapeJsonPointer conn meta m
              = bind (call (CallUpdateRestApi patch)
                           (UpdateRestApi conn patch))
                     (fun r => match r with
                               | Failure err => throw err
                               | Success _ =>
                                 resourceAwsApiGatewayRestApiRead
                                   Format_RFC3339 flattenStringList conn meta
                               end) m).
  { unfold resourceAwsApiGatewayRestApiUpdate, updateOperations.
    unfold bind at 1. unfold getData at 1.
    destruct (HasChange DeepEqual_string body (data m)) eqn:Hc.
    - destruct Hbody as [Hb|Hb]; [discriminate Hb|].
      unfold GetOk_string, Get, DeepEqual_string. rewrite Hb.
      cbn [String.eqb negb]. cbv iota.
      unfold bind at 1. unfold ret at 1.
      unfold bind at 1. unfold bind at 1. unfold getData at 1.
      rewrite Hops. reflexivity.
    - unfold bind at 1. unfold ret at 1.
      unfold bind at 1. unfold bind at 1. unfold getData at 1.
      rewrite Hops. reflexivity. }
  rewrite E. unfold bind, call.
  destruct (UpdateRestApi conn patch (remote m)) as [[out|err] s1];
    reflexivity.
Qed.

Lemma update_ends_witness :
  resourceAwsApiGatewayRestApiUpdate Examples.format Examples.same_list
    Examples.no_escape Cases.patch_fails Examples.client
    (Examples.machine Cases.compression_10)
  = (Err Cases.failure,
     {| data := Cases.compression_10; remote := O;
        trace := [] ++ [CallUpdateRestApi
                          {| ura_PatchOperations :=
                               [replace_op "/minimumCompressionSize" "10"];
                             ura_RestApiId := Some "a1b2c3" |}] |}).
Proof.
  apply (update_ends_with_patch_or_read Examples.format Examples.same_list
           Examples.no_escape Cases.patch_fails Examples.client
           (Examples.machine Cases.compression_10)
           [replace_op "/minimumCompressionSize" "10"]).
  - left. reflexivity.
  - reflexivity.
Defined.

(** *** Delete *)

(** A delete leaves the local record as it is and makes one call at most,
    a delete call, whatever room the timeout leaves. *)
Theorem delete_keeps_record
    {time_Time S : Type} (conn : Service time_Time S)
    (rounds_within : Z -> nat) (m : Machine S) :
  let run := resourceAwsApiGatewayRestApiDelete conn rounds_within m in
  data (snd run) = data m
  /\ exists calls,
       trace (snd run) = trace m ++ calls
       /\ (length calls <= 1)%nat
       /\ Forall is_delete calls.
Proof.
  intros run. subst run.
  destruct (rounds_within (10 * time_Minute)%Z) as [|n] eqn:E.
  - unfold resourceAwsApiGatewayRestApiDelete, Retry. rewrite E. simpl.
    split; [reflexivity|]. exists []. rewrite app_nil_r.
    repeat split; [simpl; lia|constructor].
  - rewrite Delete_one_call by (rewrite E; discriminate).
    destruct (DeleteRestApi conn (aws.String (Id (data m))) (remote m))
      as [r s1]. simpl. split; [reflexivity|].
    exists [CallDeleteRestApi (aws.String (Id (data m)))].
    repeat split; [simpl; lia|]. repeat constructor.
Qed.

(** *** The endpoint configuration, to the service and back *)

(** Flattening the endpoint configuration of an answer and expanding it
    again gives the types back as the two string-list helpers leave them,
    so the configuration itself when the helpers undo each other on its
    types; no configuration stays none. Expanding and flattening keeps the
    first block only. *)
Theorem endpoint_configuration_round_trip
    (expandStringList flattenStringList : list string -> list string) :
  (forall e,
     expandApiGatewayEndpointConfiguration expandStringList
       (flattenApiGatewayEndpointConfiguration flattenStringList e)
     = option_map
         (fun c => {| Types := expandStringList (flattenStringList (Types c)) |})
         e)
  /\ (forall c,
        expandStringList (flattenStringList (Types c)) = Types c ->
        expandApiGatewayEndpointConfiguration expandStringList
          (flattenApiGatewayEndpointConfiguration flattenStringList (Some c))
        = Some c)
  /\ (forall l,
        flattenApiGatewayEndpointConfiguration flattenStringList
          (expandApiGatewayEndpointConfiguration expandStringList l)
        = match l with
          | [] => []
          | m :: _ =>
            [ {| types := flattenStringList (expandStringList (types m)) |} ]
          end).
Proof.
  repeat split.
  - intros [c|]; reflexivity.
  - intros c H.
    unfold flattenApiGatewayEndpointConfiguration,
      expandApiGatewayEndpointConfiguration.
    cbn [length Nat.eqb types]. rewrite H. now destruct c.
  - intros [|m l]; reflexivity.
Qed.

Lemma endpoint_configuration_witness :
  expandApiGatewayEndpointConfiguration Examples.same_list
    (flattenApiGatewayEndpointConfiguration Examples.same_list
       (Some {| Types := ["REGIONAL"] |}))
  = Some {| Types := ["REGIONAL"] |}.
Proof.
  apply (endpoint_configuration_round_trip Examples.same_list
           Examples.same_list).
  reflexivity.
Defined.

(** *** A create from end to end *)

(** The discovery after a listing that succeeds with items that all have
    a path. *)
Lemma RefreshResources_success
    {time_Time S : Type} (conn : Service time_Time S) (m : Machine S)
    (items : list Resource) (s2 : S) :
  GetResources conn (Some (Id (data m))) (remote m) = (Success items, s2) ->
  Forall has_path items ->
  resourceAwsApiGatewayRestApiRefreshResources conn m
  = (Ok tt,
     {| data := match find is_root items with
                | Some item =>
                  Set_ (with_root_resource_id (aws.StringValue (res_Id item)))
                       (data m)
                | None => data m
                end;
        remote := s2;
        trace := trace m ++ [CallGetResources (Some (Id (data m)))] |}).
Proof.
  intros E Hpaths.
  unfold resourceAwsApiGatewayRestApiRefreshResources, bind, getData, call.
  unfold aws.String. rewrite E.
  rewrite (scanItems_find _ items _ Hpaths).
  now destruct (find is_root items).
Qed.

(** A create with no body whose three calls succeed: the local record
    ends under the identifier the service assigned, with the root resource
    the listing of that REST API shows and the attributes its lookup
    answers, after the create call, the listing and the lookup, in this
    order. *)
Theorem create_reads_back
    {time_Time S : Type} (Format_RFC3339 : time_Time -> string)
    (expandStringList flattenStringList : list string -> list string)
    (conn : Service time_Time S) (meta : AWSClient) (m : Machine S)
    (gateway api : RestApi time_Time) (id : string)
    (items : list Resource) (root : Resource)
    (policy_ : string) (t : time_Time) (s1 s2 s3 : S) :
  body (planned (data m)) = "" ->
  CreateRestApi conn (createParams expandStringList (data m)) (remote m)
  = (Success gateway, s1) ->
  ra_Id gateway = Some id ->
  GetResources conn (Some id) s1 = (Success items, s2) ->
  Forall has_path items ->
  find is_root items = Some root ->
  GetRestApi conn (Some id) s2 = (Success api, s3) ->
  strconv.Unquote (quoted (aws.StringValue (ra_Policy api)))
  = Success policy_ ->
  ra_CreatedDate api = Some t ->
  let run := resourceAwsApiGatewayRestApiCreate Format_RFC3339
               expandStringList flattenStringList conn meta m in
  fst run = Ok tt
  /\ Id (data (snd run)) = id
  /\ root_resource_id (planned (data (snd run)))
     = aws.StringValue (res_Id root)
  /\ name (planned (data (snd run))) = aws.StringValue (ra_Name api)
  /\ policy (planned (data (snd run))) = policy_
  /\ execution_arn (planned (data (snd run)))
     = arn_String (partition meta) "execute-api" (region meta)
                  (accountid meta) id
  /\ trace (snd run)
     = trace m ++ [ CallCreateRestApi (createParams expandStringList (data m));
                    CallGetResources (Some id); CallGetRestApi (Some id) ].
Proof.
  intros Hb Hc Hid Hl Hpaths Hroot Hg Hu Hd run. subst run.
  assert (E : resourceAwsApiGatewayRestApiCreate Format_RFC3339
                expandStringList flattenStringList conn meta m
              = resourceAwsApiGatewayRestApiRead Format_RFC3339
                  flattenStringList conn meta
                  {| data := Set_ (with_root_resource_id
                                     (aws.StringValue (res_Id root)))
                                  (SetId id (data m));
                     remote := s2;
                     trace := (trace m
                               ++ [CallCreateRestApi
                                     (createParams expandStringList (data m))])
                              ++ [CallGetResources (Some id)] |}).
  { rewrite (Create_after_first_call _ Format_RFC3339 expandStringList
               flattenStringList _ conn meta m gateway id s1 Hc Hid).
    rewrite Hb. cbn [String.eqb negb].
    unfold bind at 1. unfold ret at 1. unfold bind at 1.
    match goal with
    | |- context [resourceAwsApiGatewayRestApiRefreshResources conn ?m1] =>
      rewrite (RefreshResources_success conn m1 items s2 Hl Hpaths)
    end.
    rewrite Hroot. reflexivity. }
  rewrite E.
  match goal with
  | |- context [resourceAwsApiGatewayRestApiRead _ _ _ _ ?m1] =>
    rewrite (Read_success _ Format_RFC3339 flattenStringList _ conn meta
               m1 api s3 policy_ t Hg Hu Hd)
  end.
  cbn [fst snd data planned Id trace SetId Set_ with_root_resource_id
       root_resource_id name policy execution_arn].
  repeat split; try reflexivity.
  now rewrite <- !app_assoc.
Qed.

Lemma create_reads_back_witness :
  root_resource_id (planned (data (snd
    (resourceAwsApiGatewayRestApiCreate Examples.format Examples.same_list
       Examples.same_list Cases.all_fine Examples.client
       (Examples.machine Cases.unchanged))))) = "root".
Proof.
  destruct (create_reads_back Examples.format Examples.same_list
              Examples.same_list Cases.all_fine Examples.client
              (Examples.machine Cases.unchanged)
              (Examples.restApi None) (Examples.restApi None) "a1b2c3"
              [ {| res_Id := Some "other"; res_Path := Some "/pets" |};
                {| res_Id := Some "root"; res_Path := Some "/" |};
                {| res_Id := Some "late"; res_Path := Some "/" |} ]
              {| res_Id := Some "root"; res_Path := Some "/" |}
              "" tt O O O eq_refl eq_refl eq_refl eq_refl
              ltac:(repeat constructor; discriminate)
              eq_refl eq_refl eq_refl eq_refl)
    as (_ & _ & H & _).
  exact H.
Defined.
